(** * Live-Weather-App: a shallow embedding of [app.py]

    The dashboard takes a city name, issues one HTTP GET to the
    OpenWeatherMap endpoint and maps the JSON answer onto Streamlit
    widgets.  The embedding follows the script: Python values as an
    inductive type, exceptions as an error result, the Streamlit calls
    as a log of widgets, and the process environment, the log and the
    outbound requests threaded through a small state-and-error monad. *)

From Stdlib Require Import ZArith List String Ascii Bool Lia DecimalString.
Import ListNotations.
Local Open Scope string_scope.
Local Open Scope Z_scope.

(** ** Python values *)

Module Py.

(** The values [json.loads] can produce, plus what the script builds from
    them.  [PNone] is both JSON [null] and the [None] the client returns
    on failure.  A float is kept as its [repr], the shortest decimal that
    reads back as the same float: the script never computes with floats,
    it only prints them, tests them for truth and hands them to the
    chart.  A dict is the list of its items in insertion order, keys
    distinct, as the JSON decoder leaves it. *)
#[warnings="-register-all"]
Inductive pyval :=
| PNone
| PBool (b : bool)
| PInt (z : Z)
| PFloat (repr : string)
| PStr (s : string)
| PList (items : list pyval)
| PDict (items : list (string * pyval)).

(** Exceptions: the class, and [str(err)]. *)
Inductive exn_class :=
| HTTPError | RequestException
| KeyError | IndexError | TypeError | AttributeError | ValueError.

Record exn := Exn { exn_cls : exn_class; exn_str : string }.

Inductive result (A : Type) :=
| Ok (a : A)
| Raise (e : exn).
Arguments Ok {A} a.
Arguments Raise {A} e.

(** The double quote, which a literal cannot hold on its own here. *)
Definition dquote : ascii := ascii_of_nat 34.
Definition squote : ascii := "'"%char.
Definition backslash : ascii := "\"%char.

Definition str_int (z : Z) : string := NilZero.string_of_int (Z.to_int z).

Fixpoint join (sep : string) (l : list string) : string :=
  match l with
  | [] => ""
  | [x] => x
  | x :: rest => x ++ sep ++ join sep rest
  end.

(** Truth value, as [if data:] takes it. *)
Definition truthy (v : pyval) : bool :=
  match v with
  | PNone => false
  | PBool b => b
  | PInt z => negb (z =? 0)
  | PFloat r => negb (String.eqb r "0.0" || String.eqb r "-0.0")
  | PStr s => negb (String.eqb s "")
  | PList l => match l with [] => false | _ => true end
  | PDict d => match d with [] => false | _ => true end
  end.

Fixpoint dict_get (k : string) (d : list (string * pyval)) : option pyval :=
  match d with
  | [] => None
  | (k', v) :: rest => if String.eqb k k' then Some v else dict_get k rest
  end.

(** The bytes of a string are its UTF-8 encoding: a character is a
    leading byte and the continuation bytes (128 to 191) after it. *)
Definition is_continuation (c : ascii) : bool :=
  let n := nat_of_ascii c in Nat.leb 128 n && Nat.ltb n 192.

Fixpoint continuation (s : string) : string :=
  match s with
  | EmptyString => ""
  | String c s' => if is_continuation c then String c (continuation s') else ""
  end.

(** [v[0]]; on a str, its first character. *)
Definition getitem0 (v : pyval) : result pyval :=
  match v with
  | PList (x :: _) => Ok x
  | PList [] => Raise (Exn IndexError "list index out of range")
  | PStr (String c s') => Ok (PStr (String c (continuation s')))
  | PStr EmptyString => Raise (Exn IndexError "string index out of range")
  | PDict _ => Raise (Exn KeyError "0")
  | PNone => Raise (Exn TypeError "'NoneType' object is not subscriptable")
  | PBool _ => Raise (Exn TypeError "'bool' object is not subscriptable")
  | PInt _ => Raise (Exn TypeError "'int' object is not subscriptable")
  | PFloat _ => Raise (Exn TypeError "'float' object is not subscriptable")
  end.

Definition type_name (v : pyval) : string :=
  match v with
  | PNone => "NoneType" | PBool _ => "bool" | PInt _ => "int"
  | PFloat _ => "float" | PStr _ => "str" | PList _ => "list" | PDict _ => "dict"
  end.

Definition no_attribute {A} (v : pyval) (attr : string) : result A :=
  Raise (Exn AttributeError
           ("'" ++ type_name v ++ "' object has no attribute '" ++ attr ++ "'")).

(** [v.get(k, default)]: only a dict has the method. *)
Definition dict_method_get (v : pyval) (k : string) (default : pyval) : result pyval :=
  match v with
  | PDict d => Ok (match dict_get k d with Some x => x | None => default end)
  | _ => no_attribute v "get"
  end.

Fixpoint prefix_of (p s : string) : bool :=
  match p, s with
  | EmptyString, _ => true
  | String a p', String b s' => Ascii.eqb a b && prefix_of p' s'
  | String _ _, EmptyString => false
  end.

Fixpoint substring_of (p s : string) : bool :=
  prefix_of p s ||
  match s with
  | EmptyString => false
  | String _ s' => substring_of p s'
  end.

(** [k in v] with a str [k]. *)
Definition contains (k : string) (v : pyval) : result bool :=
  match v with
  | PDict d => Ok (match dict_get k d with Some _ => true | None => false end)
  | PList l =>
      Ok (existsb (fun x => match x with PStr s => String.eqb s k | _ => false end) l)
  | PStr s => Ok (substring_of k s)
  | _ => Raise (Exn TypeError ("argument of type '" ++ type_name v ++ "' is not iterable"))
  end.

End Py.

Import Py.

(** ** The two str methods the script relies on

    [str.title()] and [repr] of a str depend on the Unicode character
    tables (which characters are cased, which are printable).  They are
    taken as they are: the embedding and every theorem on it hold for
    whatever these two functions are. *)
Class PyStr := {
  str_title : string -> string;
  repr_str : string -> string
}.

(** *** On ASCII text

    The two methods written out for text made of ASCII characters, to
    run the sample responses below, whose text is ASCII.  No theorem
    depends on them. *)

Fixpoint contains_char (c : ascii) (s : string) : bool :=
  match s with
  | EmptyString => false
  | String d s' => Ascii.eqb c d || contains_char c s'
  end.

Definition hex_digit (n : nat) : ascii :=
  match n with
  | 0%nat => "0" | 1%nat => "1" | 2%nat => "2" | 3%nat => "3"
  | 4%nat => "4" | 5%nat => "5" | 6%nat => "6" | 7%nat => "7"
  | 8%nat => "8" | 9%nat => "9" | 10%nat => "a" | 11%nat => "b"
  | 12%nat => "c" | 13%nat => "d" | 14%nat => "e" | _ => "f"
  end%char.

(** [repr] of one ASCII character inside quotes [q]. *)
Definition ascii_repr_char (q c : ascii) : string :=
  let n := nat_of_ascii c in
  if Ascii.eqb c q || Ascii.eqb c backslash then String backslash (String c "")
  else if Nat.eqb n 9 then String backslash "t"
  else if Nat.eqb n 10 then String backslash "n"
  else if Nat.eqb n 13 then String backslash "r"
  else if Nat.ltb n 32 || Nat.eqb n 127
       then String backslash
              (String "x" (String (hex_digit (n / 16)) (String (hex_digit (n mod 16)) "")))
  else String c "".

Fixpoint ascii_repr_chars (q : ascii) (s : string) : string :=
  match s with
  | EmptyString => ""
  | String c s' => ascii_repr_char q c ++ ascii_repr_chars q s'
  end.

(** [repr(s)] for a str: single quotes, unless the text has a single
    quote and no double quote. *)
Definition ascii_repr (s : string) : string :=
  let q := if contains_char squote s && negb (contains_char dquote s)
           then dquote else squote in
  String q (ascii_repr_chars q s ++ String q "").

Definition is_upper (c : ascii) : bool :=
  let n := nat_of_ascii c in Nat.leb 65 n && Nat.leb n 90.
Definition is_lower (c : ascii) : bool :=
  let n := nat_of_ascii c in Nat.leb 97 n && Nat.leb n 122.
Definition to_upper (c : ascii) : ascii :=
  if is_lower c then ascii_of_nat (nat_of_ascii c - 32) else c.
Definition to_lower (c : ascii) : ascii :=
  if is_upper c then ascii_of_nat (nat_of_ascii c + 32) else c.

(** [s.title()] on ASCII text: a letter is upper-cased after a character
    that is not a letter and lower-cased after a letter. *)
Fixpoint title_from (prev_cased : bool) (s : string) : string :=
  match s with
  | EmptyString => ""
  | String c s' =>
      String (if prev_cased then to_lower c else to_upper c)
             (title_from (is_upper c || is_lower c) s')
  end.

Definition ascii_title (s : string) : string := title_from false s.

Definition ascii_str : PyStr :=
  {| str_title := ascii_title; repr_str := ascii_repr |}.

(** * The script and its libraries *)

Section Script.

Context {L : PyStr}.

(** ** Printing and subscripting *)

Fixpoint py_repr (v : pyval) : string :=
  match v with
  | PNone => "None"
  | PBool true => "True"
  | PBool false => "False"
  | PInt z => str_int z
  | PFloat r => r
  | PStr s => repr_str s
  | PList l => "[" ++ join ", " (map py_repr l) ++ "]"
  | PDict d =>
      "{" ++ join ", " (map (fun kv => repr_str (fst kv) ++ ": " ++ py_repr (snd kv)) d)
          ++ "}"
  end.

(** [str(v)], which is what an f-string field [{v}] inserts. *)
Definition py_str (v : pyval) : string :=
  match v with
  | PStr s => s
  | _ => py_repr v
  end.

(** [v[k]] with a str key. *)
Definition getitem (v : pyval) (k : string) : result pyval :=
  match v with
  | PDict d =>
      match dict_get k d with
      | Some x => Ok x
      | None => Raise (Exn KeyError (repr_str k))
      end
  | PList _ => Raise (Exn TypeError "list indices must be integers or slices, not str")
  | PStr _ => Raise (Exn TypeError "string indices must be integers, not 'str'")
  | PNone => Raise (Exn TypeError "'NoneType' object is not subscriptable")
  | PBool _ => Raise (Exn TypeError "'bool' object is not subscriptable")
  | PInt _ => Raise (Exn TypeError "'int' object is not subscriptable")
  | PFloat _ => Raise (Exn TypeError "'float' object is not subscriptable")
  end.

(** [v.title()]: only a str has the method. *)
Definition method_title (v : pyval) : result string :=
  match v with
  | PStr s => Ok (str_title s)
  | _ => no_attribute v "title"
  end.


(** ** The world the script runs in *)

(** An outbound GET: the URL and the query parameters as given to
    [requests.get]; a parameter whose value is [None] is dropped by the
    library when it builds the query string. *)
Record request := Request {
  req_url : string;
  req_params : list (string * option string)
}.

(** What [response.json()] finds in the body. *)
Inductive body :=
| Json (v : pyval)
| Malformed (descr : string).

Record response := Response {
  status_code : Z;
  reason : string;
  url : string;
  content : body
}.

(** What [requests.get] does with a request: it returns a response, or
    raises (connection refused, time-out, too many redirects, ...) with
    the given description. *)
Inductive reply :=
| Answered (r : response)
| Failed (descr : string).

(** ** Plotly figures *)

Record band := Band { band_range : Z * Z; band_color : string }.

Record gauge := Gauge {
  axis_range : Z * Z;
  axis_tickcolor : string;
  bar_color : string;
  bgcolor : string;
  borderwidth : Z;
  bordercolor : string;
  steps : list band
}.

Record indicator := Indicator {
  mode : string;
  value : pyval;
  delta_reference : pyval;
  delta_valueformat : string;
  title_text : string;
  title_font_color : string;
  gauge_of : gauge
}.

Record margins := Margins { m_l : Z; m_r : Z; m_t : Z; m_b : Z }.

Record layout := Layout {
  height : option Z;
  paper_bgcolor : option string;
  plot_bgcolor : option string;
  font_color : option string;
  margin : option margins
}.

Record figure := Figure { fig_data : list indicator; fig_layout : layout }.

(** ** Streamlit widgets *)

(** Where a widget lands: inside the i-th column of the last
    [st.columns], inside the expander. *)
Inductive container :=
| InColumn (i : nat)
| InExpander.

Inductive widget :=
| PageConfig (page_title page_icon layout_name sidebar : string)
| Markdown (text : string) (unsafe_allow_html : bool)
| ColumnsWeighted (weights : list Z)
| ColumnsEqual (n : nat)
| TextInput (label default help : string)
| Button (label kind : string)
| ErrorBox (text : string)
| Metric (label value : string) (delta : option string) (delta_color : string)
| Info (text : string)
| PlotlyChart (fig : figure) (use_container_width : bool)
| Expander (label : string)
| Write (args : list string).

(** A widget call, with the stack of enclosing [with] blocks, innermost
    first. *)
Record placed := Placed { place : list container; what : widget }.

Record world := World {
  environ : list (string * string);
  ui : list placed;
  sent : list request;
  cur : list container
}.

(** ** State and exceptions *)

Definition M (A : Type) : Type := world -> result A * world.

Definition ret {A} (a : A) : M A := fun w => (Ok a, w).

Definition bind {A B} (m : M A) (k : A -> M B) : M B :=
  fun w =>
    match m w with
    | (Ok a, w') => k a w'
    | (Raise e, w') => (Raise e, w')
    end.

Notation "x <- m ;; k" := (bind m (fun x => k))
  (at level 61, m at next level, right associativity).
Notation "m ;; k" := (bind m (fun _ => k))
  (at level 61, right associativity).

Definition lift {A} (r : result A) : M A := fun w => (r, w).

(** [try: body / except ...: handler]: every class modelled here derives
    from [Exception]; the handler picks the clause. *)
Definition try_except {A} (body : M A) (handler : exn -> M A) : M A :=
  fun w =>
    match body w with
    | (Ok a, w') => (Ok a, w')
    | (Raise e, w') => handler e w'
    end.

(** [with c: body]: the block is left on normal exit and on an exception
    alike. *)
Definition within {A} (c : container) (body : M A) : M A :=
  fun w =>
    let saved := cur w in
    let '(r, w') := body (World (environ w) (ui w) (sent w) (c :: saved)) in
    (r, World (environ w') (ui w') (sent w') saved).

(** The page after one more widget call, the log after one more request. *)
Definition show (w : world) (x : widget) : world :=
  World (environ w) (ui w ++ [Placed (cur w) x]) (sent w) (cur w).

Definition record_request (w : world) (rq : request) : world :=
  World (environ w) (ui w) (sent w ++ [rq]) (cur w).

Definition emit (x : widget) : M unit := fun w => (Ok tt, show w x).

(** Subscripting a value that is itself the result of a subscript, as in
    [data['main']['temp']]. *)
Definition sub (r : result pyval) (k : string) : result pyval :=
  match r with
  | Ok v => getitem v k
  | Raise e => Raise e
  end.

Definition sub0 (r : result pyval) : result pyval :=
  match r with
  | Ok v => getitem0 v
  | Raise e => Raise e
  end.

Notation "r @[ k ]" := (sub r k) (at level 1, format "r @[ k ]").

(** *** [os] and [dotenv] *)

Fixpoint env_get (k : string) (e : list (string * string)) : option string :=
  match e with
  | [] => None
  | (k', v) :: rest => if String.eqb k k' then Some v else env_get k rest
  end.

Definition os_getenv (k : string) : M (option string) :=
  fun w => (Ok (env_get k (environ w)), w).

(** What the parser of python-dotenv finds in the [.env] file: the
    bindings in file order; a line with a bare name binds it to [None];
    a missing file has no binding. *)
Definition dotenv_file : Type := list (string * option string).

(** [d[k] = v] on a dict kept as the list of its items: a key that is
    there keeps its place. *)
Fixpoint dict_set {V : Type} (k : string) (v : V) (d : list (string * V))
    : list (string * V) :=
  match d with
  | [] => [(k, v)]
  | (k', v') :: rest =>
      if String.eqb k k' then (k, v) :: rest else (k', v') :: dict_set k v rest
  end.

(** The dict python-dotenv makes of the bindings: of a name bound twice,
    the last binding counts. *)
Definition dotenv_dict (file : dotenv_file) : list (string * option string) :=
  fold_left (fun d kv => dict_set (fst kv) (snd kv) d) file [].

(** [load_dotenv()] with its default [override=False]: a name of the dict
    is set only when the environment does not have it, and never to
    [None]. *)
Definition dotenv_set (e : list (string * string)) (kv : string * option string)
    : list (string * string) :=
  match env_get (fst kv) e with
  | Some _ => e
  | None =>
      match snd kv with
      | Some v => (e ++ [(fst kv, v)])%list
      | None => e
      end
  end.

Definition load_dotenv (dotenv : dotenv_file) : M unit :=
  fun w => (Ok tt, World (fold_left dotenv_set (dotenv_dict dotenv) (environ w))
                     (ui w) (sent w) (cur w)).

(** *** [requests] *)

Definition requests_get (net : request -> reply) (u : string)
    (params : list (string * option string)) : M response :=
  fun w =>
    let rq := Request u params in
    let w' := record_request w rq in
    match net rq with
    | Answered r => (Ok r, w')
    | Failed descr => (Raise (Exn RequestException descr), w')
    end.

(** [response.raise_for_status()]: [HTTPError] for 4xx and 5xx. *)
Definition raise_for_status (r : response) : M unit :=
  if (400 <=? status_code r) && (status_code r <? 500) then
    lift (Raise (Exn HTTPError
      (str_int (status_code r) ++ " Client Error: " ++ reason r ++ " for url: " ++ url r)))
  else if (500 <=? status_code r) && (status_code r <? 600) then
    lift (Raise (Exn HTTPError
      (str_int (status_code r) ++ " Server Error: " ++ reason r ++ " for url: " ++ url r)))
  else ret tt.

(** [response.json()]: a body that does not parse raises
    [JSONDecodeError], a [RequestException]. *)
Definition response_json (r : response) : M pyval :=
  match content r with
  | Json v => ret v
  | Malformed descr => lift (Raise (Exn RequestException descr))
  end.

(** *** [streamlit] *)

Definition st_markdown (text : string) (html : bool) : M unit := emit (Markdown text html).
Definition st_error (text : string) : M unit := emit (ErrorBox text).
Definition st_info (text : string) : M unit := emit (Info text).
Definition st_metric (label val : string) (delta : option string) (color : string) : M unit :=
  emit (Metric label val delta color).
Definition st_write (args : list string) : M unit := emit (Write args).
Definition st_plotly_chart (fig : figure) (wide : bool) : M unit := emit (PlotlyChart fig wide).
Definition st_columns_weighted (ws : list Z) : M unit := emit (ColumnsWeighted ws).
Definition st_columns (n : nat) : M unit := emit (ColumnsEqual n).
Definition st_expander (label : string) : M unit := emit (Expander label).

(** The user's side of the two input widgets is an input of the run. *)
Definition st_text_input (label default help typed : string) : M string :=
  emit (TextInput label default help) ;; ret typed.
Definition st_button (label kind : string) (clicked : bool) : M bool :=
  emit (Button label kind) ;; ret clicked.

(** *** [plotly.graph_objects] *)

(** The number validator of [Indicator.value] and [delta.reference]:
    [None] and instances of [numbers.Number] pass, anything else is a
    [ValueError]. *)
Definition plotly_number (prop : string) (v : pyval) : result pyval :=
  match v with
  | PStr _ | PList _ | PDict _ =>
      Raise (Exn ValueError ("Invalid value of type '" ++ type_name v
                               ++ "' received for the '" ++ prop ++ "' property"))
  | _ => Ok v
  end.

Definition go_Indicator (mode : string) (val reference : pyval)
    (valueformat title_text title_color : string) (g : gauge) : M indicator :=
  v <- lift (plotly_number "value" val) ;;
  r <- lift (plotly_number "reference" reference) ;;
  ret (Indicator mode v r valueformat title_text title_color g).

Definition go_Figure (trace : indicator) : figure :=
  Figure [trace] (Layout None None None None None).

Definition update_layout (fig : figure) (h : Z) (paper plot font : string) (m : margins)
    : figure :=
  Figure (fig_data fig) (Layout (Some h) (Some paper) (Some plot) (Some font) (Some m)).

(** ** The script *)

Definition BASE_URL : string := "https://api.openweathermap.org/data/2.5/weather".

(** [get_weather_data(city_name)], lines 94-112. *)
Definition get_weather_data (net : request -> reply) (city_name : string) : M pyval :=
  API_KEY <- os_getenv "API_KEY" ;;
  try_except
    (response <- requests_get net BASE_URL
                   [("q", Some city_name); ("appid", API_KEY); ("units", Some "metric")] ;;
     raise_for_status response ;;
     response_json response)
    (fun err =>
       match exn_cls err with
       | HTTPError =>
           st_error "❌ Error: City not found or invalid API key" ;;
           ret PNone
       | _ =>
           st_error ("❌ An error occurred: " ++ exn_str err) ;;
           ret PNone
       end).

(** [create_temperature_gauge(temp, feels_like)], lines 114-142. *)
Definition create_temperature_gauge (temp feels_like : pyval) : M figure :=
  trace <- go_Indicator "gauge+number+delta" temp feels_like ".1f"
             "Temperature (°C)" "#FFFFFF"
             (Gauge (-20, 50) "#FFFFFF" "#4CAF50" "rgba(30, 30, 30, 0.8)" 2 "#333"
                [ Band (-20, 0) "#1E88E5";
                  Band (0, 20) "#FFC107";
                  Band (20, 50) "#FF5722" ]) ;;
  let fig := go_Figure trace in
  let fig := update_layout fig 300 "rgba(30, 30, 30, 0.8)" "rgba(30, 30, 30, 0.8)"
               "#FFFFFF" (Margins 10 10 50 10) in
  ret fig.

(** One run of [main]: what the user typed and clicked, what the network
    answers, and what [datetime.now().strftime(...)] prints. *)
Record interaction := Interaction {
  typed_city : string;
  clicked : bool;
  network : request -> reply;
  clock : string
}.

Definition header_html : string :=
"
        <h1 style='text-align: center; color: #FFFFFF; margin-bottom: 2rem;'>
            🌤️ Weather Dashboard
        </h1>
    ".

Definition title_html (city_title now : string) : string :=
"
                <h3 style='text-align: center; color: #FFFFFF;'>
                    Weather in " ++ city_title ++ "
                </h3>
                <p style='text-align: center; color: #9E9E9E;'>
                    Last updated: " ++ now ++ "
                </p>
            ".

Definition plot_container_open : string :=
  "<div class=" ++ String dquote ("plot-container" ++ String dquote ">").

Definition rain_label : string := "**🌧️ Rain (1h):**".

(** The body of [if data:], lines 168-228. *)
Definition render (city now : string) (data : pyval) : M unit :=
  st_markdown (title_html (str_title city) now) true ;;
  st_columns 3 ;;
  within (InColumn 0)
    (temp <- lift (Ok data)@["main"]@["temp"] ;;
     feels <- lift (Ok data)@["main"]@["feels_like"] ;;
     st_metric "Temperature" (py_str temp ++ "°C")
       (Some ("Feels like " ++ py_str feels ++ "°C")) "off") ;;
  within (InColumn 1)
    (hum <- lift (Ok data)@["main"]@["humidity"] ;;
     st_metric "Humidity" (py_str hum ++ "%") None "off") ;;
  within (InColumn 2)
    (speed <- lift (Ok data)@["wind"]@["speed"] ;;
     st_metric "Wind Speed" (py_str speed ++ " m/s") None "off") ;;
  descr <- lift (sub0 (Ok data)@["weather"])@["description"] ;;
  descr_title <- lift (method_title descr) ;;
  st_info ("**Current Conditions:** " ++ descr_title) ;;
  st_markdown plot_container_open true ;;
  temp <- lift (Ok data)@["main"]@["temp"] ;;
  feels <- lift (Ok data)@["main"]@["feels_like"] ;;
  fig <- create_temperature_gauge temp feels ;;
  st_plotly_chart fig true ;;
  st_markdown "</div>" true ;;
  st_expander "📊 See More Details" ;;
  within InExpander
    (st_columns 2 ;;
     within (InColumn 0)
       (pressure <- lift (Ok data)@["main"]@["pressure"] ;;
        st_write ["**🌡️ Pressure:**"; py_str pressure ++ " hPa"] ;;
        vis <- lift (dict_method_get data "visibility" (PStr "N/A")) ;;
        st_write ["**👁️ Visibility:**"; py_str vis ++ " meters"]) ;;
     within (InColumn 1)
       (clouds <- lift (Ok data)@["clouds"]@["all"] ;;
        st_write ["**☁️ Cloudiness:**"; py_str clouds ++ "%"] ;;
        has_rain <- lift (contains "rain" data) ;;
        if has_rain then
          rain <- lift (Ok data)@["rain"] ;;
          amount <- lift (dict_method_get rain "1h" (PInt 0)) ;;
          st_write [rain_label; py_str amount ++ " mm"]
        else ret tt)).

(** [main()], lines 144-228. *)
Definition main (i : interaction) : M unit :=
  st_markdown header_html true ;;
  st_columns_weighted [3; 1] ;;
  city <- within (InColumn 0)
            (st_text_input "Enter City Name" "London"
               "Type the name of the city you want to check the weather for"
               (typed_city i)) ;;
  search_clicked <- within (InColumn 1)
                      (st_markdown "<br>" true ;;
                       st_button "Get Weather" "primary" (clicked i)) ;;
  if search_clicked && negb (String.eqb city "") then
    data <- get_weather_data (network i) city ;;
    if truthy data then render city (clock i) data else ret tt
  else ret tt.

(** The module body, lines 9-92 and 230-231, run again by Streamlit on
    every interaction.  [css] is the style sheet of lines 25-92. *)
Definition script (dotenv : dotenv_file) (css : string) (i : interaction)
    : M unit :=
  load_dotenv dotenv ;;
  emit (PageConfig "Weather Dashboard" "🌤️" "centered" "collapsed") ;;
  st_markdown css true ;;
  main i.

(** * Vocabulary of the properties *)

(** ** The weather client *)

(** The one request a fetch for [city] sends, given the environment. *)
Definition weather_request (city : string) (env : list (string * string)) : request :=
  Request BASE_URL
    [("q", Some city); ("appid", env_get "API_KEY" env); ("units", Some "metric")].

(** The statuses [raise_for_status] rejects. *)
Definition error_status (s : Z) : bool := (400 <=? s) && (s <? 600).

(** What a fetch returns and what it signals, read off the reply. *)
Definition fetch_outcome (rep : reply) : pyval * list widget :=
  match rep with
  | Answered r =>
      if error_status (status_code r)
      then (PNone, [ErrorBox "❌ Error: City not found or invalid API key"])
      else match content r with
           | Json v => (v, [])
           | Malformed descr => (PNone, [ErrorBox ("❌ An error occurred: " ++ descr)])
           end
  | Failed descr => (PNone, [ErrorBox ("❌ An error occurred: " ++ descr)])
  end.

(** The page after several widget calls, and after widgets placed by
    hand. *)
Definition show_all (w : world) (xs : list widget) : world := fold_left show xs w.

Definition show_placed (w : world) (ps : list placed) : world :=
  World (environ w) (ui w ++ ps) (sent w) (cur w).

(** ** Readings *)

(** The fields the renderer reads from a response, as the API documents
    them: [main.temp], [main.feels_like], [main.humidity], [wind.speed],
    [weather[0].description], [main.pressure], [clouds.all]. *)
Record reading := Reading {
  temperature : pyval;
  feels_like : pyval;
  humidity : pyval;
  wind_speed : pyval;
  description : string;
  pressure : pyval;
  cloudiness : pyval
}.

Definition is_number (v : pyval) : bool :=
  match v with
  | PInt _ | PFloat _ => true
  | _ => false
  end.

(** [rain], when the response has it, is an object. *)
Definition rain_ok (data : pyval) : bool :=
  match (Ok data)@["rain"] with
  | Ok (PDict _) => true
  | Ok _ => false
  | Raise _ => true
  end.

Definition field (r : result pyval) : option pyval :=
  match r with
  | Ok v => Some v
  | Raise _ => None
  end.

(** A response has the documented shape when the seven fields are there,
    the two temperatures are numbers, the description is a string and
    [rain] is absent or an object. *)
Definition reading_of (data : pyval) : option reading :=
  match field (Ok data)@["main"]@["temp"],
        field (Ok data)@["main"]@["feels_like"],
        field (Ok data)@["main"]@["humidity"],
        field (Ok data)@["wind"]@["speed"],
        field (sub0 (Ok data)@["weather"])@["description"],
        field (Ok data)@["main"]@["pressure"],
        field (Ok data)@["clouds"]@["all"]
  with
  | Some t, Some f, Some h, Some s, Some (PStr dsc), Some p, Some c =>
      if is_number t && is_number f && rain_ok data
      then Some (Reading t f h s dsc p c)
      else None
  | _, _, _, _, _, _, _ => None
  end.

(** The figure the gauge returns for two numbers. *)
Definition gauge_figure (temp feels : pyval) : figure :=
  Figure
    [Indicator "gauge+number+delta" temp feels ".1f" "Temperature (°C)" "#FFFFFF"
       (Gauge (-20, 50) "#FFFFFF" "#4CAF50" "rgba(30, 30, 30, 0.8)" 2 "#333"
          [Band (-20, 0) "#1E88E5"; Band (0, 20) "#FFC107"; Band (20, 50) "#FF5722"])]
    (Layout (Some 300) (Some "rgba(30, 30, 30, 0.8)") (Some "rgba(30, 30, 30, 0.8)")
       (Some "#FFFFFF") (Some (Margins 10 10 50 10))).

(** The value printed on the visibility line, and the rainfall line if
    there is one. *)
Definition visibility_value (d : list (string * pyval)) : pyval :=
  match dict_get "visibility" d with
  | Some v => v
  | None => PStr "N/A"
  end.

Definition rain_widgets (d : list (string * pyval)) (base : list container) : list placed :=
  match dict_get "rain" d with
  | Some (PDict r) =>
      [Placed (InColumn 1 :: InExpander :: base)
         (Write [rain_label;
                 py_str (match dict_get "1h" r with Some x => x | None => PInt 0 end)
                 ++ " mm"])]
  | _ => []
  end.

(** Everything the renderer shows for a reading, in order. *)
Definition result_widgets (city now : string) (rd : reading)
    (d : list (string * pyval)) (base : list container) : list placed :=
  List.app
  [ Placed base (Markdown (title_html (str_title city) now) true);
    Placed base (ColumnsEqual 3);
    Placed (InColumn 0 :: base)
      (Metric "Temperature" (py_str (temperature rd) ++ "°C")
         (Some ("Feels like " ++ py_str (feels_like rd) ++ "°C")) "off");
    Placed (InColumn 1 :: base)
      (Metric "Humidity" (py_str (humidity rd) ++ "%") None "off");
    Placed (InColumn 2 :: base)
      (Metric "Wind Speed" (py_str (wind_speed rd) ++ " m/s") None "off");
    Placed base (Info ("**Current Conditions:** " ++ str_title (description rd)));
    Placed base (Markdown plot_container_open true);
    Placed base (PlotlyChart (gauge_figure (temperature rd) (feels_like rd)) true);
    Placed base (Markdown "</div>" true);
    Placed base (Expander "📊 See More Details");
    Placed (InExpander :: base) (ColumnsEqual 2);
    Placed (InColumn 0 :: InExpander :: base)
      (Write ["**🌡️ Pressure:**"; py_str (pressure rd) ++ " hPa"]);
    Placed (InColumn 0 :: InExpander :: base)
      (Write ["**👁️ Visibility:**"; py_str (visibility_value d) ++ " meters"]);
    Placed (InColumn 1 :: InExpander :: base)
      (Write ["**☁️ Cloudiness:**"; py_str (cloudiness rd) ++ "%"]) ]
  (rain_widgets d base).

(** ** Runs *)

(** A run starts on an empty page, outside any container, with nothing
    sent yet. *)
Definition fresh (env : list (string * string)) : world := World env [] [] [].

Definition page (i : interaction) (env : list (string * string)) : list placed :=
  ui (snd (main i (fresh env))).

Definition outcome (i : interaction) (env : list (string * string)) : result unit :=
  fst (main i (fresh env)).

Definition requests_sent (i : interaction) (env : list (string * string)) : list request :=
  sent (snd (main i (fresh env))).

(** The header and the two input widgets, shown on every run. *)
Definition input_widgets (base : list container) : list placed :=
  [ Placed base (Markdown header_html true);
    Placed base (ColumnsWeighted [3; 1]);
    Placed (InColumn 0 :: base)
      (TextInput "Enter City Name" "London"
         "Type the name of the city you want to check the weather for");
    Placed (InColumn 1 :: base) (Markdown "<br>" true);
    Placed (InColumn 1 :: base) (Button "Get Weather" "primary") ].

(** The test of line 164. *)
Definition submitted (i : interaction) : bool :=
  clicked i && negb (String.eqb (typed_city i) "").

(** ** Sample runs *)

Definition sample_env : list (string * string) := [("API_KEY", "0123456789abcdef")].

Definition answer_200 (data : pyval) : request -> reply :=
  fun rq => Answered (Response 200 "OK" (req_url rq) (Json data)).

(** The reading of the London scenario: no rain. *)
Definition clear_sky : list (string * pyval) :=
  [ ("main", PDict [("temp", PFloat "15.0"); ("feels_like", PFloat "14.2");
                    ("humidity", PInt 70); ("pressure", PInt 1012)]);
    ("wind", PDict [("speed", PFloat "3.5")]);
    ("weather", PList [PDict [("description", PStr "clear sky")]]);
    ("clouds", PDict [("all", PInt 10)]);
    ("visibility", PInt 10000) ].

Definition clear_sky_reading : reading :=
  Reading (PFloat "15.0") (PFloat "14.2") (PInt 70) (PFloat "3.5") "clear sky"
    (PInt 1012) (PInt 10).

(** A rainy reading, without a visibility field. *)
Definition light_rain : list (string * pyval) :=
  [ ("main", PDict [("temp", PFloat "9.4"); ("feels_like", PFloat "7.1");
                    ("humidity", PInt 93); ("pressure", PInt 1002)]);
    ("wind", PDict [("speed", PFloat "4.6")]);
    ("weather", PList [PDict [("description", PStr "light rain")]]);
    ("clouds", PDict [("all", PInt 100)]);
    ("rain", PDict [("1h", PFloat "2.3")]) ].

Definition light_rain_reading : reading :=
  Reading (PFloat "9.4") (PFloat "7.1") (PInt 93) (PFloat "4.6") "light rain"
    (PInt 1002) (PInt 100).

(** A reading whose rain object only has the three-hour figure. *)
Definition rain_3h : list (string * pyval) :=
  [ ("main", PDict [("temp", PInt 12); ("feels_like", PFloat "11.3");
                    ("humidity", PInt 88); ("pressure", PInt 1007)]);
    ("wind", PDict [("speed", PInt 2)]);
    ("weather", PList [PDict [("description", PStr "moderate rain")]]);
    ("clouds", PDict [("all", PInt 90)]);
    ("visibility", PInt 6000);
    ("rain", PDict [("3h", PFloat "5.1")]) ].

Definition rain_3h_reading : reading :=
  Reading (PInt 12) (PFloat "11.3") (PInt 88) (PInt 2) "moderate rain"
    (PInt 1007) (PInt 90).

Definition asks (city : string) (data : list (string * pyval)) : interaction :=
  Interaction city true (answer_200 (PDict data)) "2024-05-01 12:00:00".

(** A 2xx answer that is valid JSON but carries no weather fields. *)
Definition bare_answer : interaction :=
  Interaction "London" true (answer_200 (PDict [("cod", PInt 200)])) "2024-05-01 12:00:00".

(** The Atlantis scenario: the endpoint answers 404. *)
Definition atlantis : interaction :=
  Interaction "Atlantis123" true
    (fun rq => Answered (Response 404 "Not Found" (req_url rq)
                           (Json (PDict [("cod", PStr "404");
                                         ("message", PStr "city not found")]))))
    "2024-05-01 12:00:00".

Definition empty_city : interaction :=
  Interaction "" true (answer_200 (PDict clear_sky)) "2024-05-01 12:00:00".

(** ** Lines of the detail panel *)

(** The [st.write] lines of a page that carry a given label. *)
Definition lines_labelled (label : string) (ps : list placed) : list placed :=
  filter (fun p => match what p with
                   | Write (l :: _) => String.eqb l label
                   | _ => false
                   end) ps.

Definition visibility_label : string := "**👁️ Visibility:**".

(** The two columns of the expander. *)
Definition detail_left : list container := [InColumn 0; InExpander].
Definition detail_right : list container := [InColumn 1; InExpander].

(** ** Sessions *)

(** A computation that neither touches the environment nor sends a
    request, whether it returns or raises. *)
Definition keeps_env_and_log {A} (m : M A) : Prop :=
  forall w, environ (snd (m w)) = environ w /\ sent (snd (m w)) = sent w.

(** The environment once [load_dotenv] has run. *)
Definition startup_env (dotenv : dotenv_file) (env0 : list (string * string))
    : list (string * string) :=
  fold_left dotenv_set (dotenv_dict dotenv) env0.

(** The value the [.env] file gives to a name: that of its last binding,
    if it has one and it is not a bare name. *)
Fixpoint last_binding (k : string) (file : dotenv_file) : option (option string) :=
  match file with
  | [] => None
  | (k', v) :: rest =>
      match last_binding k rest with
      | Some x => Some x
      | None => if String.eqb k k' then Some v else None
      end
  end.

Definition file_value (k : string) (file : dotenv_file) : option string :=
  match last_binding k file with
  | Some (Some v) => Some v
  | _ => None
  end.

(** The credential a process ends up with: the variable of its
    environment if there is one, otherwise what the [.env] file gives. *)
Definition credential (dotenv : dotenv_file) (env0 : list (string * string))
    : option string :=
  match env_get "API_KEY" env0 with
  | Some k => Some k
  | None => file_value "API_KEY" dotenv
  end.

Fixpoint assoc {V : Type} (k : string) (d : list (string * V)) : option V :=
  match d with
  | [] => None
  | (k', v) :: rest => if String.eqb k k' then Some v else assoc k rest
  end.

(** Streamlit runs the script again on every interaction, in the same
    process: the environment carries over, the page starts empty, and an
    exception ends the run without ending the process. *)
Definition rerun (dotenv : dotenv_file) (css : string)
    (w : world) (i : interaction) : world :=
  snd (script dotenv css i (World (environ w) [] (sent w) [])).

Definition session (dotenv : dotenv_file) (css : string)
    (runs : list interaction) (env0 : list (string * string)) : world :=
  fold_left (rerun dotenv css) runs (fresh env0).

(** ** Vocabulary of the further properties *)

(** What one run of the whole script shows. *)
Definition script_page (dotenv : dotenv_file) (css : string)
    (i : interaction) (env : list (string * string)) : list placed :=
  ui (snd (script dotenv css i (fresh env))).

(** A computation that only adds to the page and leaves the stack of open
    containers as it found it, whether it returns or raises. *)
Definition orderly {A} (m : M A) : Prop :=
  forall w, cur (snd (m w)) = cur w
            /\ exists added, ui (snd (m w)) = (ui w ++ added)%list.

(** Two worlds that differ at most in the log of requests sent, and a
    computation that cannot tell them apart. *)
Definition same_but_log (w1 w2 : world) : Prop :=
  environ w1 = environ w2 /\ ui w1 = ui w2 /\ cur w1 = cur w2.

Definition log_blind {A} (m : M A) : Prop :=
  forall w1 w2, same_but_log w1 w2 ->
    fst (m w1) = fst (m w2) /\ same_but_log (snd (m w1)) (snd (m w2)).

(** The seven fields are in the response, the temperatures are numbers;
    nothing is said of [rain]. *)
Definition has_fields (data : pyval) (rd : reading) : Prop :=
  (Ok data)@["main"]@["temp"] = Ok (temperature rd) /\
  (Ok data)@["main"]@["feels_like"] = Ok (feels_like rd) /\
  (Ok data)@["main"]@["humidity"] = Ok (humidity rd) /\
  (Ok data)@["wind"]@["speed"] = Ok (wind_speed rd) /\
  (sub0 (Ok data)@["weather"])@["description"] = Ok (PStr (description rd)) /\
  (Ok data)@["main"]@["pressure"] = Ok (pressure rd) /\
  (Ok data)@["clouds"]@["all"] = Ok (cloudiness rd) /\
  is_number (temperature rd) = true /\
  is_number (feels_like rd) = true.

(** The point [n/d] of the axis lies on the band. *)
Definition on_band (b : band) (n d : Z) : Prop :=
  fst (band_range b) * d <= n <= snd (band_range b) * d.

(** Further sample answers: an empty object, a list, a reading with an
    empty [weather] list, one whose [rain] is a number, one whose
    [visibility] is [null]. *)
Definition empty_object : interaction :=
  Interaction "London" true (answer_200 (PDict [])) "2024-05-01 12:00:00".

Definition list_answer : interaction :=
  Interaction "London" true (answer_200 (PList [PDict clear_sky])) "2024-05-01 12:00:00".

Definition no_weather : list (string * pyval) :=
  [ ("main", PDict [("temp", PFloat "15.0"); ("feels_like", PFloat "14.2");
                    ("humidity", PInt 70); ("pressure", PInt 1012)]);
    ("wind", PDict [("speed", PFloat "3.5")]);
    ("weather", PList []);
    ("clouds", PDict [("all", PInt 10)]) ].

Definition rain_number : list (string * pyval) :=
  [ ("main", PDict [("temp", PFloat "9.4"); ("feels_like", PFloat "7.1");
                    ("humidity", PInt 93); ("pressure", PInt 1002)]);
    ("wind", PDict [("speed", PFloat "4.6")]);
    ("weather", PList [PDict [("description", PStr "light rain")]]);
    ("clouds", PDict [("all", PInt 100)]);
    ("rain", PFloat "2.3") ].

Definition null_visibility : list (string * pyval) :=
  [ ("main", PDict [("temp", PFloat "15.0"); ("feels_like", PFloat "14.2");
                    ("humidity", PInt 70); ("pressure", PInt 1012)]);
    ("wind", PDict [("speed", PFloat "3.5")]);
    ("weather", PList [PDict [("description", PStr "clear sky")]]);
    ("clouds", PDict [("all", PInt 10)]);
    ("visibility", PNone) ].


Definition rain_3h_without_clouds : list (string * pyval) :=
  [ ("main", PDict [("temp", PInt 12); ("feels_like", PFloat "11.3");
                    ("humidity", PInt 88); ("pressure", PInt 1007)]);
    ("wind", PDict [("speed", PInt 2)]);
    ("weather", PList [PDict [("description", PStr "moderate rain")]]);
    ("rain", PDict [("3h", PFloat "5.1")]) ].

Definition no_visibility_no_wind : list (string * pyval) :=
  [ ("main", PDict [("temp", PFloat "15.0"); ("feels_like", PFloat "14.2");
                    ("humidity", PInt 70); ("pressure", PInt 1012)]);
    ("weather", PList [PDict [("description", PStr "clear sky")]]);
    ("clouds", PDict [("all", PInt 10)]) ].

(** A session in which the [.env] file may differ from run to run. *)
Definition session_files (css : string) (runs : list (dotenv_file * interaction))
    (env0 : list (string * string)) : world :=
  fold_left (fun w r => rerun (fst r) css w (snd r)) runs (fresh env0).

(** * Properties *)

(** ** Python values *)

(** ** The weather client *)

Lemma raise_for_status_error r w :
  error_status (status_code r) = true ->
  exists msg, raise_for_status r w = (Raise (Exn HTTPError msg), w).
Proof.
  unfold error_status, raise_for_status. intros H.
  apply andb_prop in H as [Hlo Hhi].
  destruct (status_code r <? 500) eqn:E5.
  - rewrite Hlo. cbn. eexists. reflexivity.
  - rewrite andb_false_r.
    assert ((500 <=? status_code r) = true) as -> by lia.
    rewrite Hhi. cbn. eexists. reflexivity.
Qed.

Lemma raise_for_status_pass r w :
  error_status (status_code r) = false ->
  raise_for_status r w = (Ok tt, w).
Proof.
  unfold error_status, raise_for_status. intros H.
  assert ((400 <=? status_code r) && (status_code r <? 500) = false) as -> by lia.
  assert ((500 <=? status_code r) && (status_code r <? 600) = false) as -> by lia.
  reflexivity.
Qed.

Lemma get_weather_data_run net city w :
  let rq := weather_request city (environ w) in
  get_weather_data net city w =
    (Ok (fst (fetch_outcome (net rq))),
     show_all (record_request w rq) (snd (fetch_outcome (net rq)))).
Proof.
  unfold get_weather_data, bind, os_getenv, try_except, requests_get, weather_request,
    fetch_outcome.
  cbn zeta.
  destruct (net _) as [r | descr]; [| reflexivity].
  destruct (error_status (status_code r)) eqn:E.
  - destruct (raise_for_status_error r (record_request w
        (Request BASE_URL
           [("q", Some city); ("appid", env_get "API_KEY" (environ w));
            ("units", Some "metric")])) E) as [msg ->].
    reflexivity.
  - rewrite raise_for_status_pass by exact E.
    unfold response_json. destruct (content r); reflexivity.
Qed.

(** C1.  A fetch sends its one request and then does exactly one of three
    things, decided by the reply alone: a reply whose status is not an
    error status (every 2xx is such) and whose body parses returns the
    parsed value and shows nothing; an error status returns [None] and
    shows the fixed "City not found or invalid API key" error; a failed
    request or a body that does not parse returns [None] and shows the
    generic error with the failure's description.  In every case the
    call returns: no exception reaches the caller. *)
Theorem get_weather_data_three_outcomes :
  forall (net : request -> reply) (city : string) (w : world),
    let rq := weather_request city (environ w) in
    let w1 := record_request w rq in
    get_weather_data net city w =
      match net rq with
      | Answered r =>
          if error_status (status_code r)
          then (Ok PNone, show w1 (ErrorBox "❌ Error: City not found or invalid API key"))
          else match content r with
               | Json v => (Ok v, w1)
               | Malformed descr =>
                   (Ok PNone, show w1 (ErrorBox ("❌ An error occurred: " ++ descr)))
               end
      | Failed descr =>
          (Ok PNone, show w1 (ErrorBox ("❌ An error occurred: " ++ descr)))
      end
    /\ (forall s : Z, (200 <=? s) && (s <? 300) && error_status s = false).
Proof.
  intros net city w rq w1. split.
  - subst rq w1. rewrite get_weather_data_run. unfold fetch_outcome.
    destruct (net _) as [r | descr]; [| reflexivity].
    destruct (error_status (status_code r)); [reflexivity |].
    destruct (content r); reflexivity.
  - intro s. unfold error_status. lia.
Qed.

(** ** The gauge *)


(** C4.  The gauge is a function of its two arguments alone: in any two
    worlds the same pair of arguments (floats in particular) gives the
    same result, and the call leaves the world it ran in as it was (no
    widget shown, no request sent, the environment untouched). *)
Theorem create_temperature_gauge_pure :
  forall (temp feels_like : pyval) (w1 w2 : world),
    fst (create_temperature_gauge temp feels_like w1)
      = fst (create_temperature_gauge temp feels_like w2)
    /\ snd (create_temperature_gauge temp feels_like w1) = w1
    /\ snd (create_temperature_gauge temp feels_like w2) = w2.
Proof.
  intros temp feels_like w1 w2.
  unfold create_temperature_gauge, go_Indicator, bind, lift, ret.
  destruct (plotly_number "value" temp); [| repeat split].
  destruct (plotly_number "reference" feels_like); repeat split.
Qed.

(** ** Rendering a reading *)

Lemma field_some r v : field r = Some v -> r = Ok v.
Proof. destruct r; cbn; congruence. Qed.

Lemma reading_of_fields data rd :
  reading_of data = Some rd ->
  (Ok data)@["main"]@["temp"] = Ok (temperature rd) /\
  (Ok data)@["main"]@["feels_like"] = Ok (feels_like rd) /\
  (Ok data)@["main"]@["humidity"] = Ok (humidity rd) /\
  (Ok data)@["wind"]@["speed"] = Ok (wind_speed rd) /\
  (sub0 (Ok data)@["weather"])@["description"] = Ok (PStr (description rd)) /\
  (Ok data)@["main"]@["pressure"] = Ok (pressure rd) /\
  (Ok data)@["clouds"]@["all"] = Ok (cloudiness rd) /\
  is_number (temperature rd) = true /\
  is_number (feels_like rd) = true /\
  rain_ok data = true.
Proof.
  unfold reading_of.
  destruct (field (Ok data)@["main"]@["temp"]) as [t |] eqn:Et; [| discriminate].
  destruct (field (Ok data)@["main"]@["feels_like"]) as [f |] eqn:Ef; [| discriminate].
  destruct (field (Ok data)@["main"]@["humidity"]) as [h |] eqn:Eh; [| discriminate].
  destruct (field (Ok data)@["wind"]@["speed"]) as [s |] eqn:Es; [| discriminate].
  destruct (field (sub0 (Ok data)@["weather"])@["description"]) as [dv |] eqn:Ed;
    [| discriminate].
  destruct dv as [| | | | dsc | |]; try discriminate.
  destruct (field (Ok data)@["main"]@["pressure"]) as [p |] eqn:Ep; [| discriminate].
  destruct (field (Ok data)@["clouds"]@["all"]) as [c |] eqn:Ec; [| discriminate].
  destruct (is_number t) eqn:Nt; [| discriminate].
  destruct (is_number f) eqn:Nf; [| discriminate].
  destruct (rain_ok data) eqn:Rk; [| discriminate].
  cbn. intros [= <-]. cbn.
  apply field_some in Et, Ef, Eh, Es, Ed, Ep, Ec.
  repeat split; assumption.
Qed.

Lemma render_run city now d rd w :
  reading_of (PDict d) = Some rd ->
  render city now (PDict d) w
    = (Ok tt, show_placed w (result_widgets city now rd d (cur w))).
Proof.
  intros H.
  destruct (reading_of_fields _ _ H)
    as (Ht & Hf & Hh & Hs & Hd & Hp & Hc & Nt & Nf & Rk).
  unfold render. rewrite Ht, Hf, Hh, Hs, Hd, Hp, Hc.
  assert (G : forall w0, create_temperature_gauge (temperature rd) (feels_like rd) w0
                = (Ok (gauge_figure (temperature rd) (feels_like rd)), w0)).
  { intro w0. destruct (temperature rd); try discriminate;
      destruct (feels_like rd); try discriminate; reflexivity. }
  unfold rain_ok in Rk. cbn [sub getitem] in Rk.
  unfold bind, within, lift, st_markdown, st_columns, st_metric, st_info,
    st_plotly_chart, st_expander, st_write, emit, ret, method_title.
  cbn [cur show environ ui sent]. rewrite G.
  cbn [cur show environ ui sent dict_method_get contains sub getitem].
  unfold show_placed, result_widgets, rain_widgets, visibility_value.
  destruct (dict_get "rain" d) as [rv |] eqn:Er.
  - destruct rv; try discriminate.
    cbn [cur show environ ui sent dict_method_get].
    repeat rewrite <- app_assoc. reflexivity.
  - cbn [cur show environ ui sent].
    repeat rewrite <- app_assoc. reflexivity.
Qed.

(** ** One run of [main] *)

Lemma submitted_true i :
  clicked i = true -> typed_city i <> "" -> submitted i = true.
Proof.
  intros Hc Hn. unfold submitted. rewrite Hc. cbn.
  destruct (String.eqb_spec (typed_city i) ""); [contradiction | reflexivity].
Qed.

Lemma submitted_false i :
  clicked i = false \/ typed_city i = "" -> submitted i = false.
Proof.
  unfold submitted. intros [-> | ->]; [reflexivity |].
  rewrite String.eqb_refl. apply andb_false_r.
Qed.

Lemma main_run i w :
  main i w =
    let w1 := show_placed w (input_widgets (cur w)) in
    if submitted i then
      let rq := weather_request (typed_city i) (environ w) in
      let out := fetch_outcome (network i rq) in
      let w2 := show_all (record_request w1 rq) (snd out) in
      if truthy (fst out) then render (typed_city i) (clock i) (fst out) w2
      else (Ok tt, w2)
    else (Ok tt, w1).
Proof.
  unfold main, submitted.
  unfold bind at 1 2 3 4.
  unfold within, st_markdown, st_columns_weighted, st_text_input, st_button, emit, bind, ret.
  cbn [cur show environ ui sent].
  unfold show_placed, input_widgets. repeat rewrite <- app_assoc. cbn [app].
  destruct (clicked i && negb (String.eqb (typed_city i) "")); [| reflexivity].
  rewrite get_weather_data_run. cbn [environ fst snd]. cbv zeta.
  destruct (truthy _); reflexivity.
Qed.

Lemma fetch_outcome_value net city w1 w2 :
  environ w1 = environ w2 ->
  fst (get_weather_data net city w1) = fst (get_weather_data net city w2).
Proof.
  intros E. rewrite !get_weather_data_run. cbn. rewrite E. reflexivity.
Qed.

(** A fetch that returns something other than [None] has shown nothing. *)
Lemma fetch_outcome_quiet rep :
  fst (fetch_outcome rep) <> PNone -> snd (fetch_outcome rep) = [].
Proof.
  unfold fetch_outcome. destruct rep as [r | descr]; cbn; [| congruence].
  destruct (error_status (status_code r)); cbn; [congruence |].
  destruct (content r); cbn; congruence.
Qed.

(** A fetch shows at most the one error box. *)
Lemma fetch_outcome_errors rep :
  Forall (fun x => exists msg, x = ErrorBox msg) (snd (fetch_outcome rep)).
Proof.
  unfold fetch_outcome. destruct rep as [r | descr]; cbn.
  - destruct (error_status (status_code r)); cbn.
    + repeat constructor. eexists. reflexivity.
    + destruct (content r); cbn; repeat constructor. eexists. reflexivity.
  - repeat constructor. eexists. reflexivity.
Qed.

(** A successful run on a response of the documented shape. *)
Lemma main_success i env d rd :
  clicked i = true ->
  typed_city i <> "" ->
  fst (get_weather_data (network i) (typed_city i) (fresh env)) = Ok (PDict d) ->
  reading_of (PDict d) = Some rd ->
  main i (fresh env)
    = (Ok tt,
       World env
         (input_widgets [] ++ result_widgets (typed_city i) (clock i) rd d [])
         [weather_request (typed_city i) env] []).
Proof.
  intros Hc Hn Hf Hr.
  rewrite get_weather_data_run in Hf. cbn in Hf. injection Hf as Hf.
  rewrite main_run. rewrite (submitted_true i Hc Hn). cbv zeta. cbn [fresh environ cur].
  rewrite fetch_outcome_quiet by (rewrite Hf; discriminate).
  rewrite Hf.
  assert (Ht : truthy (PDict d) = true).
  { destruct d; [discriminate Hr | reflexivity]. }
  rewrite Ht. cbn [show_all fold_left].
  rewrite (render_run _ _ _ rd) by exact Hr. reflexivity.
Qed.

(** ** The renderer *)

(** C2, as the code has it.  The renderer indexes the response without
    checking it, so the pass is total on responses of the documented
    shape only: when the user submits a non-empty city, the fetch returns
    a response with the seven fields present (temperatures numeric,
    description a string, rain absent or an object), the run ends
    normally and the page carries the temperature, humidity and wind
    metrics, the condition line, and the pressure and cloudiness lines,
    each with the value of its field. *)
Theorem render_populates_documented_shape :
  forall (i : interaction) (env : list (string * string))
         (d : list (string * pyval)) (rd : reading),
    clicked i = true ->
    typed_city i <> "" ->
    fst (get_weather_data (network i) (typed_city i) (fresh env)) = Ok (PDict d) ->
    reading_of (PDict d) = Some rd ->
    outcome i env = Ok tt
    /\ In (Placed [InColumn 0]
             (Metric "Temperature" (py_str (temperature rd) ++ "°C")
                (Some ("Feels like " ++ py_str (feels_like rd) ++ "°C")) "off"))
          (page i env)
    /\ In (Placed [InColumn 1]
             (Metric "Humidity" (py_str (humidity rd) ++ "%") None "off"))
          (page i env)
    /\ In (Placed [InColumn 2]
             (Metric "Wind Speed" (py_str (wind_speed rd) ++ " m/s") None "off"))
          (page i env)
    /\ In (Placed [] (Info ("**Current Conditions:** " ++ str_title (description rd))))
          (page i env)
    /\ In (Placed [InColumn 0; InExpander]
             (Write ["**🌡️ Pressure:**"; py_str (pressure rd) ++ " hPa"]))
          (page i env)
    /\ In (Placed [InColumn 1; InExpander]
             (Write ["**☁️ Cloudiness:**"; py_str (cloudiness rd) ++ "%"]))
          (page i env).
Proof.
  intros i env d rd Hc Hn Hf Hr.
  unfold outcome, page. rewrite (main_success i env d rd Hc Hn Hf Hr).
  cbn [fst snd ui]. split; [reflexivity |].
  unfold result_widgets.
  repeat split; apply in_or_app; right; apply in_or_app; left; cbn [In];
    repeat (first [left; reflexivity | right]).
Qed.

(** ** The detail panel *)

Lemma rain_lines_of_success city now rd d :
  lines_labelled rain_label (input_widgets [] ++ result_widgets city now rd d [])
  = rain_widgets d [].
Proof.
  unfold lines_labelled, result_widgets. rewrite !filter_app.
  match goal with
  | |- (?a ++ ?b ++ ?c)%list = _ =>
      assert (Ha : a = []) by reflexivity;
      assert (Hb : b = []) by reflexivity;
      rewrite Ha, Hb
  end.
  cbn [app]. unfold rain_widgets.
  destruct (dict_get "rain" d) as [[] |]; reflexivity.
Qed.

Lemma visibility_lines_of_success city now rd d :
  lines_labelled visibility_label (input_widgets [] ++ result_widgets city now rd d [])
  = [Placed detail_left
       (Write [visibility_label; py_str (visibility_value d) ++ " meters"])].
Proof.
  unfold lines_labelled, result_widgets. rewrite !filter_app.
  match goal with
  | |- (?a ++ ?b ++ ?c)%list = _ =>
      assert (Ha : a = []) by reflexivity;
      assert (Hc : c = [])
        by (unfold rain_widgets; destruct (dict_get "rain" d) as [[] |]; reflexivity);
      rewrite Ha, Hc
  end.
  rewrite app_nil_r. reflexivity.
Qed.

Lemma contains_false k d :
  contains k (PDict d) = Ok false -> dict_get k d = None.
Proof.
  cbn. destruct (dict_get k d); [discriminate | reflexivity].
Qed.

Lemma getitem_dict k d v :
  (Ok (PDict d))@[k] = Ok v -> dict_get k d = Some v.
Proof.
  cbn. destruct (dict_get k d); [congruence | discriminate].
Qed.



(** C7.  On a response of the documented shape the run ends normally and
    the page has exactly one visibility line, in the detail panel: it
    reads "N/A meters" when the response has no [visibility], and the
    integer in decimal followed by " meters" when it has one. *)
Theorem visibility_line_or_placeholder :
  forall (i : interaction) (env : list (string * string))
         (d : list (string * pyval)) (rd : reading),
    clicked i = true ->
    typed_city i <> "" ->
    fst (get_weather_data (network i) (typed_city i) (fresh env)) = Ok (PDict d) ->
    reading_of (PDict d) = Some rd ->
    outcome i env = Ok tt
    /\ (contains "visibility" (PDict d) = Ok false ->
          lines_labelled visibility_label (page i env)
          = [Placed detail_left (Write [visibility_label; "N/A meters"])])
    /\ (forall z : Z,
          (Ok (PDict d))@["visibility"] = Ok (PInt z) ->
          lines_labelled visibility_label (page i env)
          = [Placed detail_left (Write [visibility_label; str_int z ++ " meters"])]).
Proof.
  intros i env d rd Hc Hn Hf Hr.
  unfold outcome, page. rewrite (main_success i env d rd Hc Hn Hf Hr). cbn [fst snd ui].
  rewrite visibility_lines_of_success. unfold visibility_value.
  split; [reflexivity |]. split.
  - intros H. apply contains_false in H. rewrite H. reflexivity.
  - intros z H. apply getitem_dict in H. rewrite H. reflexivity.
Qed.

(** C9.  On a response of the documented shape whose [rain] object has
    no ["1h"] entry, the page still has its one rainfall line, and it
    reads "0 mm". *)
Theorem rainfall_line_defaults_to_zero :
  forall (i : interaction) (env : list (string * string))
         (d r : list (string * pyval)) (rd : reading),
    clicked i = true ->
    typed_city i <> "" ->
    fst (get_weather_data (network i) (typed_city i) (fresh env)) = Ok (PDict d) ->
    reading_of (PDict d) = Some rd ->
    (Ok (PDict d))@["rain"] = Ok (PDict r) ->
    contains "1h" (PDict r) = Ok false ->
    lines_labelled rain_label (page i env)
    = [Placed detail_right (Write [rain_label; "0 mm"])].
Proof.
  intros i env d r rd Hc Hn Hf Hr Hrain H1.
  unfold page. rewrite (main_success i env d rd Hc Hn Hf Hr). cbn [snd ui].
  rewrite rain_lines_of_success. unfold rain_widgets.
  apply getitem_dict in Hrain. apply contains_false in H1.
  rewrite Hrain, H1. reflexivity.
Qed.

(** ** Runs that show no result *)

Lemma show_all_eq w xs :
  show_all w xs
  = World (environ w) (ui w ++ map (Placed (cur w)) xs) (sent w) (cur w).
Proof.
  unfold show_all. revert w.
  induction xs as [| x xs IH]; intro w; cbn [fold_left map].
  - rewrite app_nil_r. destruct w; reflexivity.
  - rewrite IH. cbn [show ui cur environ sent].
    rewrite <- app_assoc. reflexivity.
Qed.

(** C8.  When the user submits a city and the fetch returns [None], the
    run ends normally and the page is the input widgets followed by what
    the client itself showed, which is nothing but error boxes and at
    most one of them: no title, metric, condition line, gauge or detail
    panel.  One request was sent, the environment is as before, and no
    container is left open. *)
Theorem failed_fetch_renders_only_error :
  forall (i : interaction) (env : list (string * string)),
    clicked i = true ->
    typed_city i <> "" ->
    fst (get_weather_data (network i) (typed_city i) (fresh env)) = Ok PNone ->
    exists errs : list widget,
      main i (fresh env)
        = (Ok tt,
           World env (input_widgets [] ++ map (Placed []) errs)
             [weather_request (typed_city i) env] [])
      /\ ui (snd (get_weather_data (network i) (typed_city i) (fresh env)))
         = map (Placed []) errs
      /\ Forall (fun x => exists msg, x = ErrorBox msg) errs
      /\ (List.length errs <= 1)%nat.
Proof.
  intros i env Hc Hn Hf.
  rewrite get_weather_data_run in *. cbn [fst snd fresh environ] in *.
  injection Hf as Hf.
  exists (snd (fetch_outcome (network i (weather_request (typed_city i) env)))).
  split; [| split; [| split]].
  - rewrite main_run, (submitted_true i Hc Hn). cbv zeta. cbn [fresh environ cur].
    rewrite Hf. cbn [truthy]. rewrite show_all_eq. reflexivity.
  - rewrite show_all_eq. reflexivity.
  - apply fetch_outcome_errors.
  - unfold fetch_outcome. destruct (network i _) as [r | descr]; cbn; [| lia].
    destruct (error_status (status_code r)); cbn; [lia |].
    destruct (content r); cbn; lia.
Qed.

(** C10.  Unless the button was clicked and the city string is not
    empty, a run shows the input widgets and nothing else, sends no
    request and ends normally; a click with an empty city is such a
    run. *)
Theorem no_fetch_without_click_and_city :
  forall (i : interaction) (env : list (string * string)),
    clicked i = false \/ typed_city i = "" ->
    main i (fresh env) = (Ok tt, World env (input_widgets []) [] []).
Proof.
  intros i env H.
  rewrite main_run, (submitted_false i H). reflexivity.
Qed.

(** ** The credential across a session *)

Lemma keeps_ret {A} (a : A) : keeps_env_and_log (ret a).
Proof. intro w. split; reflexivity. Qed.

Lemma keeps_lift {A} (r : result A) : keeps_env_and_log (lift r).
Proof. intro w. split; reflexivity. Qed.

Lemma keeps_emit (x : widget) : keeps_env_and_log (emit x).
Proof. intro w. split; reflexivity. Qed.

Lemma keeps_bind {A B} (m : M A) (k : A -> M B) :
  keeps_env_and_log m -> (forall a, keeps_env_and_log (k a)) ->
  keeps_env_and_log (bind m k).
Proof.
  intros Hm Hk w. unfold bind. destruct (Hm w) as [He Hs].
  destruct (m w) as [[a | e] w1]; cbn [snd] in *.
  - destruct (Hk a w1) as [He' Hs']. split; congruence.
  - split; assumption.
Qed.

Lemma keeps_within {A} (c : container) (m : M A) :
  keeps_env_and_log m -> keeps_env_and_log (within c m).
Proof.
  intros Hm w. unfold within.
  destruct (Hm (World (environ w) (ui w) (sent w) (c :: cur w))) as [He Hs].
  destruct (m _) as [r w1]. cbn [snd environ sent] in *. split; assumption.
Qed.

Lemma keeps_if {A} (b : bool) (m1 m2 : M A) :
  keeps_env_and_log m1 -> keeps_env_and_log m2 ->
  keeps_env_and_log (if b then m1 else m2).
Proof. destruct b; auto. Qed.

Ltac frame :=
  repeat first
    [ apply keeps_ret | apply keeps_lift | apply keeps_emit
    | apply keeps_within | apply keeps_if
    | apply keeps_bind; [| intro] ].

Lemma create_temperature_gauge_keeps temp feels :
  keeps_env_and_log (create_temperature_gauge temp feels).
Proof. unfold create_temperature_gauge, go_Indicator. frame. Qed.

Lemma render_keeps city now data : keeps_env_and_log (render city now data).
Proof.
  unfold render, st_markdown, st_columns, st_metric, st_info, st_plotly_chart,
    st_expander, st_write.
  repeat first [ apply create_temperature_gauge_keeps | progress frame ].
Qed.

(** What one run of [main] does to the environment and to the log of
    requests, whatever the answer and whether or not rendering fails. *)
Lemma main_env_log i w :
  environ (snd (main i w)) = environ w
  /\ sent (snd (main i w))
     = (sent w ++ if submitted i
                  then [weather_request (typed_city i) (environ w)]
                  else [])%list.
Proof.
  rewrite main_run. cbv zeta.
  destruct (submitted i); [| cbn; rewrite app_nil_r; split; reflexivity].
  rewrite show_all_eq. cbn [record_request show_placed environ ui sent cur].
  destruct (truthy _); [| split; reflexivity].
  match goal with
  | |- context [render ?c ?n ?v ?w0] => destruct (render_keeps c n v w0) as [He Hs]
  end.
  rewrite He, Hs. split; reflexivity.
Qed.

Lemma script_env_log dotenv css i w :
  environ (snd (script dotenv css i w)) = startup_env dotenv (environ w)
  /\ sent (snd (script dotenv css i w))
     = (sent w ++ if submitted i
                  then [weather_request (typed_city i) (startup_env dotenv (environ w))]
                  else [])%list.
Proof.
  unfold script, bind, load_dotenv, st_markdown, emit. cbn [show environ ui sent cur].
  match goal with |- context [main i ?w0] => destruct (main_env_log i w0) as [He Hs] end.
  destruct (main i _) as [[[] | e] w1]; cbn [snd environ sent] in *; split; assumption.
Qed.

Lemma env_get_app k e1 e2 :
  env_get k (e1 ++ e2)
  = match env_get k e1 with Some v => Some v | None => env_get k e2 end.
Proof.
  induction e1 as [| [k' v'] e1 IH]; cbn; [reflexivity |].
  destruct (String.eqb k k'); [reflexivity | exact IH].
Qed.

Lemma dotenv_set_keeps k e kv :
  env_get k e <> None -> env_get k (dotenv_set e kv) <> None.
Proof.
  unfold dotenv_set. destruct (env_get (fst kv) e); [auto |].
  destruct (snd kv); [| auto].
  rewrite env_get_app. destruct (env_get k e); congruence.
Qed.

Lemma dotenv_set_binds e kv v :
  snd kv = Some v -> env_get (fst kv) (dotenv_set e kv) <> None.
Proof.
  intros Hv. unfold dotenv_set. rewrite Hv.
  destruct (env_get (fst kv) e) eqn:E; [congruence |].
  rewrite env_get_app, E. cbn. rewrite String.eqb_refl. discriminate.
Qed.

Lemma load_keeps k l e :
  env_get k e <> None -> env_get k (fold_left dotenv_set l e) <> None.
Proof.
  revert e. induction l as [| kv l IH]; intros e H; cbn; [exact H |].
  apply IH, dotenv_set_keeps, H.
Qed.

Lemma load_binds l e kv v :
  In kv l -> snd kv = Some v -> env_get (fst kv) (fold_left dotenv_set l e) <> None.
Proof.
  revert e. induction l as [| kv' l IH]; intros e H Hv; [destruct H |].
  destruct H as [-> | H]; cbn.
  - apply load_keeps. eapply dotenv_set_binds. exact Hv.
  - apply IH; assumption.
Qed.

Lemma load_bound_noop l e :
  (forall kv, In kv l -> snd kv = None \/ env_get (fst kv) e <> None) ->
  fold_left dotenv_set l e = e.
Proof.
  induction l as [| kv l IH]; intros H; cbn; [reflexivity |].
  assert (Hs : dotenv_set e kv = e).
  { unfold dotenv_set. destruct (env_get (fst kv) e) eqn:E; [reflexivity |].
    destruct (H kv (or_introl eq_refl)) as [-> | Hb]; [reflexivity | contradiction]. }
  rewrite Hs. apply IH. intros kv' Hin. apply H. right. exact Hin.
Qed.

(** Loading the same [.env] a second time changes nothing. *)
Lemma startup_env_idempotent dotenv env0 :
  startup_env dotenv (startup_env dotenv env0) = startup_env dotenv env0.
Proof.
  unfold startup_env. apply load_bound_noop. intros kv H.
  destruct (snd kv) as [v |] eqn:Hv; [right | left; reflexivity].
  eapply load_binds; eassumption.
Qed.

(** *** What a load leaves in the environment *)

Lemma assoc_dict_set {V : Type} k k' (v : V) d :
  assoc k (dict_set k' v d) = if String.eqb k k' then Some v else assoc k d.
Proof.
  induction d as [| [k0 v0] d IH]; cbn [dict_set assoc]; [reflexivity |].
  destruct (String.eqb_spec k' k0) as [-> | Hne]; cbn [assoc].
  - destruct (String.eqb k k0); reflexivity.
  - rewrite IH. destruct (String.eqb_spec k k0) as [-> | _]; [| reflexivity].
    destruct (String.eqb_spec k0 k') as [E | _]; [congruence | reflexivity].
Qed.

Lemma assoc_fold_dict_set k (file : dotenv_file) d :
  assoc k (fold_left (fun d kv => dict_set (fst kv) (snd kv) d) file d)
  = match last_binding k file with
    | Some x => Some x
    | None => assoc k d
    end.
Proof.
  revert d. induction file as [| [k' v'] file IH]; intro d; cbn [fold_left last_binding];
    [reflexivity |].
  rewrite IH. destruct (last_binding k file); [reflexivity |].
  cbn [fst snd]. rewrite assoc_dict_set. destruct (String.eqb k k'); reflexivity.
Qed.

Lemma keys_dict_set {V : Type} k (v : V) d x :
  In x (map fst (dict_set k v d)) -> x = k \/ In x (map fst d).
Proof.
  induction d as [| [k0 v0] d IH]; cbn [dict_set map fst In].
  - intros [<- | []]. left. reflexivity.
  - destruct (String.eqb_spec k k0) as [-> | Hne]; cbn [map fst In].
    + intros [<- | H]; [left; reflexivity | right; right; exact H].
    + intros [<- | H]; [right; left; reflexivity |].
      destruct (IH H) as [-> | H']; [left; reflexivity | right; right; exact H'].
Qed.

Lemma nodup_dict_set {V : Type} k (v : V) d :
  NoDup (map fst d) -> NoDup (map fst (dict_set k v d)).
Proof.
  induction d as [| [k0 v0] d IH]; cbn [dict_set map fst]; intros H.
  - repeat constructor. intros [].
  - inversion H as [| ? ? Hnin Hnd]; subst.
    destruct (String.eqb_spec k k0) as [-> | Hne]; cbn [map fst].
    + constructor; assumption.
    + constructor; [| apply IH; exact Hnd].
      intros Hin. destruct (keys_dict_set _ _ _ _ Hin) as [-> | Hin'];
        [congruence | contradiction].
Qed.

Lemma nodup_dotenv_dict file : NoDup (map fst (dotenv_dict file)).
Proof.
  unfold dotenv_dict.
  assert (G : forall d : list (string * option string),
             NoDup (map fst d) ->
             NoDup (map fst (fold_left (fun d kv => dict_set (fst kv) (snd kv) d) file d))).
  { induction file as [| kv file IH]; intros d Hd; cbn [fold_left]; [exact Hd |].
    apply IH, nodup_dict_set, Hd. }
  apply G. constructor.
Qed.

Lemma assoc_absent {V : Type} k (d : list (string * V)) :
  ~ In k (map fst d) -> assoc k d = None.
Proof.
  induction d as [| [k0 v0] d IH]; cbn [assoc map fst In]; intros H; [reflexivity |].
  destruct (String.eqb_spec k k0) as [-> | _]; [exfalso; apply H; left; reflexivity |].
  apply IH. intros Hin. apply H. right. exact Hin.
Qed.

Lemma env_get_load k l e :
  NoDup (map fst l) ->
  env_get k (fold_left dotenv_set l e)
  = match env_get k e with
    | Some v => Some v
    | None => match assoc k l with Some (Some v) => Some v | _ => None end
    end.
Proof.
  revert e. induction l as [| [k' v'] l IH]; intros e Hnd; cbn [fold_left assoc].
  - destruct (env_get k e); reflexivity.
  - inversion Hnd as [| ? ? Hnin Hnd']; subst. rewrite (IH _ Hnd').
    unfold dotenv_set. cbn [fst snd].
    destruct (env_get k' e) eqn:Ek'.
    + destruct (env_get k e) eqn:Ek; [reflexivity |].
      destruct (String.eqb_spec k k') as [-> | _]; [congruence | reflexivity].
    + destruct v' as [v' |].
      * rewrite env_get_app. cbn [env_get].
        destruct (env_get k e); [reflexivity |].
        destruct (String.eqb_spec k k') as [-> | _]; reflexivity.
      * destruct (env_get k e); [reflexivity |].
        destruct (String.eqb_spec k k') as [-> | _]; [| reflexivity].
        rewrite (assoc_absent _ _ Hnin). reflexivity.
Qed.

(** A variable of the environment wins over the [.env] file; of the
    file, the last binding of the name counts. *)
Lemma env_get_startup k dotenv env0 :
  env_get k (startup_env dotenv env0)
  = match env_get k env0 with
    | Some v => Some v
    | None => file_value k dotenv
    end.
Proof.
  unfold startup_env. rewrite env_get_load by apply nodup_dotenv_dict.
  unfold dotenv_dict, file_value. rewrite assoc_fold_dict_set. cbn [assoc].
  destruct (env_get k env0); [reflexivity |].
  destruct (last_binding k dotenv) as [[v |] |]; reflexivity.
Qed.

Lemma session_loaded dotenv css runs w :
  startup_env dotenv (environ w) = environ w ->
  environ (fold_left (rerun dotenv css) runs w) = environ w
  /\ sent (fold_left (rerun dotenv css) runs w)
     = (sent w ++ map (fun i => weather_request (typed_city i) (environ w))
                      (filter submitted runs))%list.
Proof.
  revert w. induction runs as [| i runs IH]; intros w Hw; cbn [fold_left filter].
  - cbn. rewrite app_nil_r. split; reflexivity.
  - destruct (script_env_log dotenv css i (World (environ w) [] (sent w) []))
      as [He Hs].
    cbn [environ sent] in He, Hs. rewrite Hw in He, Hs.
    fold (rerun dotenv css w i) in He, Hs.
    destruct (IH (rerun dotenv css w i)) as [He' Hs']; [rewrite He; exact Hw |].
    rewrite He', Hs', He, Hs. split; [reflexivity |].
    destruct (submitted i); cbn [map]; rewrite <- app_assoc; reflexivity.
Qed.

(** C5, as the code has it.  [load_dotenv] runs again on every run and
    [os.getenv] at every fetch, so the credential is fixed only as far
    as the [.env] file is: over a session of any number of runs with the
    [.env] file unchanged, every request sent carries as [appid] one and
    the same value, the [API_KEY] of the environment the process started
    with if it had one and otherwise the one the file gives (none if
    neither has it), one request per submitted run and none otherwise;
    and at the end of the session the environment is the one the first
    load left: no run changes it. *)
Theorem credential_fixed_at_startup :
  forall (dotenv : dotenv_file) (css : string)
         (first : interaction) (later : list interaction)
         (env0 : list (string * string)),
    let w := session dotenv css (first :: later) env0 in
    sent w
    = map (fun i => Request BASE_URL
                      [("q", Some (typed_city i));
                       ("appid", credential dotenv env0);
                       ("units", Some "metric")])
          (filter submitted (first :: later))
    /\ environ w = startup_env dotenv env0
    /\ env_get "API_KEY" (environ w) = credential dotenv env0.
Proof.
  intros dotenv css first later env0 w. subst w.
  unfold session. cbn [fold_left].
  destruct (script_env_log dotenv css first (World env0 [] [] [])) as [He Hs].
  cbn [environ sent app] in He, Hs.
  change (snd (script dotenv css first (World env0 [] [] [])))
    with (rerun dotenv css (fresh env0) first) in He, Hs.
  destruct (session_loaded dotenv css later (rerun dotenv css (fresh env0) first))
    as [He' Hs'].
  { rewrite He. apply startup_env_idempotent. }
  rewrite He', Hs', He, Hs. unfold weather_request.
  rewrite env_get_startup. fold (credential dotenv env0).
  split; [| split; reflexivity].
  cbn [filter]. destruct (submitted first); reflexivity.
Qed.

(** * Further properties *)

(** ** What every run shows first *)

Lemma orderly_ret {A} (a : A) : orderly (ret a).
Proof. intro w. split; [reflexivity |]. exists []. cbn. now rewrite app_nil_r. Qed.

Lemma orderly_lift {A} (r : result A) : orderly (lift r).
Proof. intro w. split; [reflexivity |]. exists []. cbn. now rewrite app_nil_r. Qed.

Lemma orderly_emit (x : widget) : orderly (emit x).
Proof. intro w. split; [reflexivity |]. eexists. reflexivity. Qed.

Lemma orderly_bind {A B} (m : M A) (k : A -> M B) :
  orderly m -> (forall a, orderly (k a)) -> orderly (bind m k).
Proof.
  intros Hm Hk w. unfold bind. destruct (Hm w) as [Hc [added Hu]].
  destruct (m w) as [[a | e] w1]; cbn [snd] in *.
  - destruct (Hk a w1) as [Hc' [added' Hu']]. split; [congruence |].
    exists (added ++ added')%list. rewrite Hu', Hu, app_assoc. reflexivity.
  - split; [assumption |]. exists added. assumption.
Qed.

Lemma orderly_within {A} (c : container) (m : M A) :
  orderly m -> orderly (within c m).
Proof.
  intros Hm w. unfold within.
  destruct (Hm (World (environ w) (ui w) (sent w) (c :: cur w))) as [_ [added Hu]].
  destruct (m _) as [r w1]. cbn [snd ui cur] in *.
  split; [reflexivity |]. exists added. assumption.
Qed.

Lemma orderly_if {A} (b : bool) (m1 m2 : M A) :
  orderly m1 -> orderly m2 -> orderly (if b then m1 else m2).
Proof. destruct b; auto. Qed.

Lemma orderly_get_weather_data net city : orderly (get_weather_data net city).
Proof.
  intro w. rewrite get_weather_data_run. cbn [snd]. rewrite show_all_eq.
  cbn [cur ui record_request]. split; [reflexivity |]. eexists. reflexivity.
Qed.

Ltac orderly_steps :=
  repeat first
    [ apply orderly_ret | apply orderly_lift | apply orderly_emit
    | apply orderly_get_weather_data
    | apply orderly_within | apply orderly_if
    | apply orderly_bind; [| intro] ].

Lemma orderly_render city now data : orderly (render city now data).
Proof.
  unfold render, create_temperature_gauge, go_Indicator, st_markdown, st_columns,
    st_metric, st_info, st_plotly_chart, st_expander, st_write.
  orderly_steps.
Qed.

Lemma orderly_main i : orderly (main i).
Proof.
  unfold main, st_markdown, st_columns_weighted, st_text_input, st_button.
  repeat first [ apply orderly_render | progress orderly_steps ].
Qed.

(** X1.  Whatever the user did, whatever the network answered and
    whether or not rendering raised, a run of the script shows first the
    page configuration, then the style sheet, then the header and the
    two input widgets, in this order, and ends with no container left
    open. *)
Theorem script_page_starts_with_inputs :
  forall (dotenv : dotenv_file) (css : string) (i : interaction)
         (env : list (string * string)),
    (exists rest : list placed,
       script_page dotenv css i env
       = Placed [] (PageConfig "Weather Dashboard" "🌤️" "centered" "collapsed")
         :: Placed [] (Markdown css true)
         :: List.app (input_widgets []) rest)
    /\ cur (snd (script dotenv css i (fresh env))) = [].
Proof.
  intros dotenv css i env.
  unfold script_page, script, bind, load_dotenv, st_markdown, emit, fresh.
  cbn [show environ ui sent cur app].
  match goal with |- context [main i ?w0] => set (w1 := w0) end.
  pose proof (main_run i w1) as Hrun. cbv zeta in Hrun.
  destruct (orderly_main i w1) as [Hc _].
  assert (Hp : exists rest, ui (snd (main i w1))
                            = (ui w1 ++ input_widgets [] ++ rest)%list).
  { rewrite Hrun. destruct (submitted i).
    - rewrite show_all_eq.
      cbn [record_request show_placed environ ui sent cur].
      destruct (truthy _).
      + match goal with
        | |- context [render ?c ?n ?v ?w0] =>
            destruct (orderly_render c n v w0) as [_ [added Hu]]
        end.
        rewrite Hu. cbn [ui]. eexists. rewrite <- !app_assoc. reflexivity.
      + cbn [snd ui]. eexists. rewrite <- !app_assoc. reflexivity.
    - cbn [snd show_placed ui]. exists []. rewrite app_nil_r. reflexivity. }
  destruct Hp as [rest Hp].
  destruct (main i w1) as [[[] | e] w2]; cbn [snd] in *;
    (split; [exists rest; rewrite Hp; reflexivity | exact Hc]).
Qed.

(** ** Answers the renderer does not expect *)

(** A submitted run whose fetch returned something other than [None]. *)
Lemma main_fetched i env data :
  clicked i = true ->
  typed_city i <> "" ->
  fst (get_weather_data (network i) (typed_city i) (fresh env)) = Ok data ->
  data <> PNone ->
  main i (fresh env)
  = let w := World env (input_widgets []) [weather_request (typed_city i) env] [] in
    if truthy data then render (typed_city i) (clock i) data w else (Ok tt, w).
Proof.
  intros Hc Hn Hf Hd.
  rewrite get_weather_data_run in Hf. cbn in Hf. injection Hf as Hf.
  rewrite main_run, (submitted_true i Hc Hn). cbv zeta. cbn [fresh environ cur].
  rewrite fetch_outcome_quiet by (rewrite Hf; exact Hd).
  rewrite Hf. reflexivity.
Qed.

(** X2.  When the fetch returns a value that is not [None] but counts as
    false (an empty object or list, zero, [false], an empty string), the
    run ends normally with the input widgets alone on the page: no
    result and no error box either, although the request was sent. *)
Theorem falsy_answer_shows_nothing :
  forall (i : interaction) (env : list (string * string)) (data : pyval),
    clicked i = true ->
    typed_city i <> "" ->
    fst (get_weather_data (network i) (typed_city i) (fresh env)) = Ok data ->
    data <> PNone ->
    truthy data = false ->
    main i (fresh env)
    = (Ok tt, World env (input_widgets []) [weather_request (typed_city i) env] []).
Proof.
  intros i env data Hc Hn Hf Hd Ht.
  rewrite (main_fetched i env data Hc Hn Hf Hd). cbv zeta. rewrite Ht. reflexivity.
Qed.

(** X3.  When the fetch returns a value that counts as true but is not
    an object (a list, a string, a number), the renderer raises
    [TypeError] at its first subscript: the page has the input widgets,
    the title and the row of three columns, and no metric. *)
Theorem non_object_answer_raises_type_error :
  forall (i : interaction) (env : list (string * string)) (data : pyval),
    clicked i = true ->
    typed_city i <> "" ->
    fst (get_weather_data (network i) (typed_city i) (fresh env)) = Ok data ->
    truthy data = true ->
    (forall d, data <> PDict d) ->
    (exists msg, outcome i env = Raise (Exn TypeError msg))
    /\ page i env
       = List.app (input_widgets [])
           [ Placed [] (Markdown (title_html (str_title (typed_city i)) (clock i)) true);
             Placed [] (ColumnsEqual 3) ].
Proof.
  intros i env data Hc Hn Hf Ht Hd.
  assert (Hnone : data <> PNone) by (intros ->; discriminate Ht).
  unfold outcome, page.
  rewrite (main_fetched i env data Hc Hn Hf Hnone). cbv zeta. rewrite Ht.
  destruct data; try discriminate Ht;
    try (exfalso; eapply Hd; reflexivity);
    (split; [eexists; reflexivity | reflexivity]).
Qed.

(** X4.  When the fetch returns a non-empty object without a [main]
    entry, the renderer raises [KeyError] for the key, its message the
    [repr] of ["main"]: the page has the input widgets, the title and
    the row of three columns, and no metric. *)
Theorem missing_main_raises_key_error :
  forall (i : interaction) (env : list (string * string)) (d : list (string * pyval)),
    clicked i = true ->
    typed_city i <> "" ->
    fst (get_weather_data (network i) (typed_city i) (fresh env)) = Ok (PDict d) ->
    d <> [] ->
    contains "main" (PDict d) = Ok false ->
    outcome i env = Raise (Exn KeyError (repr_str "main"))
    /\ page i env
       = List.app (input_widgets [])
           [ Placed [] (Markdown (title_html (str_title (typed_city i)) (clock i)) true);
             Placed [] (ColumnsEqual 3) ].
Proof.
  intros i env d Hc Hn Hf Hd Hm.
  assert (Hnone : PDict d <> PNone) by discriminate.
  assert (Ht : truthy (PDict d) = true) by (destruct d; [contradiction | reflexivity]).
  apply contains_false in Hm.
  unfold outcome, page.
  rewrite (main_fetched i env (PDict d) Hc Hn Hf Hnone). cbv zeta. rewrite Ht.
  unfold render, bind, within, lift, st_markdown, st_columns, emit.
  cbn [cur show environ ui sent sub getitem]. rewrite Hm.
  split; reflexivity.
Qed.

(** X5.  When the response has the temperature, humidity and wind
    fields but its [weather] list is empty, the three metrics are shown
    and the renderer then raises [IndexError]: no condition line, no
    gauge and no detail panel follow. *)
Theorem empty_weather_list_raises_index_error :
  forall (i : interaction) (env : list (string * string)) (d : list (string * pyval))
         (temp feels hum speed : pyval),
    clicked i = true ->
    typed_city i <> "" ->
    fst (get_weather_data (network i) (typed_city i) (fresh env)) = Ok (PDict d) ->
    (Ok (PDict d))@["main"]@["temp"] = Ok temp ->
    (Ok (PDict d))@["main"]@["feels_like"] = Ok feels ->
    (Ok (PDict d))@["main"]@["humidity"] = Ok hum ->
    (Ok (PDict d))@["wind"]@["speed"] = Ok speed ->
    (Ok (PDict d))@["weather"] = Ok (PList []) ->
    outcome i env = Raise (Exn IndexError "list index out of range")
    /\ page i env
       = List.app (input_widgets [])
           [ Placed [] (Markdown (title_html (str_title (typed_city i)) (clock i)) true);
             Placed [] (ColumnsEqual 3);
             Placed [InColumn 0]
               (Metric "Temperature" (py_str temp ++ "°C")
                  (Some ("Feels like " ++ py_str feels ++ "°C")) "off");
             Placed [InColumn 1] (Metric "Humidity" (py_str hum ++ "%") None "off");
             Placed [InColumn 2] (Metric "Wind Speed" (py_str speed ++ " m/s") None "off") ].
Proof.
  intros i env d temp feels hum speed Hc Hn Hf Ht Hfl Hh Hs Hw.
  assert (Hnone : PDict d <> PNone) by discriminate.
  assert (Htr : truthy (PDict d) = true) by (destruct d; [discriminate Hw | reflexivity]).
  unfold outcome, page.
  rewrite (main_fetched i env (PDict d) Hc Hn Hf Hnone). cbv zeta. rewrite Htr.
  unfold render. rewrite Ht, Hfl, Hh, Hs, Hw.
  unfold bind, within, lift, st_markdown, st_columns, st_metric, emit.
  cbn [cur show environ ui sent sub0 getitem0 sub].
  split; reflexivity.
Qed.

(** What the renderer does once the seven fields are there, for any
    [rain] entry. *)
Lemma render_with_fields city now d rd w :
  has_fields (PDict d) rd ->
  render city now (PDict d) w
  = (match dict_get "rain" d with
     | Some (PDict _) | None => Ok tt
     | Some rv => no_attribute rv "get"
     end,
     show_placed w (result_widgets city now rd d (cur w))).
Proof.
  intros (Ht & Hf & Hh & Hs & Hd & Hp & Hc & Nt & Nf).
  unfold render. rewrite Ht, Hf, Hh, Hs, Hd, Hp, Hc.
  assert (G : forall w0, create_temperature_gauge (temperature rd) (feels_like rd) w0
                = (Ok (gauge_figure (temperature rd) (feels_like rd)), w0)).
  { intro w0. destruct (temperature rd); try discriminate;
      destruct (feels_like rd); try discriminate; reflexivity. }
  unfold bind, within, lift, st_markdown, st_columns, st_metric, st_info,
    st_plotly_chart, st_expander, st_write, emit, ret, method_title.
  cbn [cur show environ ui sent]. rewrite G.
  cbn [cur show environ ui sent dict_method_get contains sub getitem].
  unfold show_placed, result_widgets, rain_widgets, visibility_value.
  destruct (dict_get "rain" d) as [rv |] eqn:Er.
  - destruct rv; cbn [cur show environ ui sent dict_method_get];
      unfold no_attribute; cbn [cur show environ ui sent];
      repeat rewrite <- app_assoc; reflexivity.
  - cbn [cur show environ ui sent].
    repeat rewrite <- app_assoc. reflexivity.
Qed.

(** X6.  When the seven fields are there, the two temperatures numbers
    and the description a string, and [rain] is present but is not an
    object (a number, a string, [null]), everything is shown that a
    response without rain would show, the cloudiness line last, and the
    renderer then raises [AttributeError] on [.get]: the page has no
    rainfall line. *)
Theorem non_object_rain_raises_attribute_error :
  forall (i : interaction) (env : list (string * string)) (d : list (string * pyval))
         (rd : reading) (rv : pyval),
    clicked i = true ->
    typed_city i <> "" ->
    fst (get_weather_data (network i) (typed_city i) (fresh env)) = Ok (PDict d) ->
    has_fields (PDict d) rd ->
    (Ok (PDict d))@["rain"] = Ok rv ->
    (forall r, rv <> PDict r) ->
    (exists msg, outcome i env = Raise (Exn AttributeError msg))
    /\ page i env
       = List.app (input_widgets []) (result_widgets (typed_city i) (clock i) rd d [])
    /\ rain_widgets d [] = []
    /\ lines_labelled rain_label (page i env) = []
    /\ last (page i env) (Placed [] (ColumnsEqual 0))
       = Placed detail_right (Write ["**☁️ Cloudiness:**"; py_str (cloudiness rd) ++ "%"]).
Proof.
  intros i env d rd rv Hc Hn Hf Hfields Hr Hnd.
  assert (Hnone : PDict d <> PNone) by discriminate.
  assert (Htr : truthy (PDict d) = true) by (destruct d; [discriminate Hr | reflexivity]).
  apply getitem_dict in Hr.
  unfold outcome, page.
  rewrite (main_fetched i env (PDict d) Hc Hn Hf Hnone). cbv zeta. rewrite Htr.
  rewrite (render_with_fields _ _ _ rd) by exact Hfields.
  cbn [fst snd show_placed ui cur]. rewrite Hr.
  assert (Hw : rain_widgets d [] = []).
  { unfold rain_widgets. rewrite Hr.
    destruct rv; try reflexivity. exfalso. eapply Hnd. reflexivity. }
  split; [| split; [| split; [| split]]].
  - destruct rv; try (eexists; reflexivity). exfalso. eapply Hnd. reflexivity.
  - reflexivity.
  - exact Hw.
  - rewrite rain_lines_of_success. exact Hw.
  - unfold result_widgets. rewrite Hw, app_nil_r. reflexivity.
Qed.

(** X7.  On a response of the documented shape that has a [visibility]
    entry, the visibility line prints that entry as Python prints it,
    whatever it is: the "N/A" placeholder is for a missing key only, and
    a [null] visibility reads "None meters". *)
Theorem visibility_line_prints_any_value :
  forall (i : interaction) (env : list (string * string))
         (d : list (string * pyval)) (rd : reading) (v : pyval),
    clicked i = true ->
    typed_city i <> "" ->
    fst (get_weather_data (network i) (typed_city i) (fresh env)) = Ok (PDict d) ->
    reading_of (PDict d) = Some rd ->
    (Ok (PDict d))@["visibility"] = Ok v ->
    lines_labelled visibility_label (page i env)
    = [Placed detail_left (Write [visibility_label; py_str v ++ " meters"])].
Proof.
  intros i env d rd v Hc Hn Hf Hr Hv.
  unfold page. rewrite (main_success i env d rd Hc Hn Hf Hr). cbn [snd ui].
  rewrite visibility_lines_of_success. unfold visibility_value.
  apply getitem_dict in Hv. rewrite Hv. reflexivity.
Qed.

(** ** The bands of the gauge *)

(** X8.  The three bands of the gauge leave no gap: each lies within the
    axis, and every point [n/d] of the axis from -20 to 50 lies on at
    least one of them, whatever the two temperatures the gauge was built
    for. *)
Theorem gauge_bands_cover_axis :
  forall (temp feels : string) (w : world) (n d : Z),
    0 < d ->
    -20 * d <= n <= 50 * d ->
    exists ind lay b,
      create_temperature_gauge (PFloat temp) (PFloat feels) w
        = (Ok (Figure [ind] lay), w)
      /\ Forall (fun b' => fst (axis_range (gauge_of ind)) <= fst (band_range b')
                           /\ fst (band_range b') < snd (band_range b')
                           /\ snd (band_range b') <= snd (axis_range (gauge_of ind)))
           (steps (gauge_of ind))
      /\ In b (steps (gauge_of ind))
      /\ on_band b n d.
Proof.
  intros temp feels w n d Hd Hn.
  assert (Hcase : n <= 0 * d \/ (0 * d <= n <= 20 * d) \/ 20 * d <= n) by lia.
  destruct Hcase as [H | [H | H]].
  - do 2 eexists. exists (Band (-20, 0) "#1E88E5").
    split; [reflexivity |]. cbn [gauge_of steps axis_range].
    split; [repeat constructor; cbn; lia |].
    split; [left; reflexivity | unfold on_band; cbn [band_range fst snd]; lia].
  - do 2 eexists. exists (Band (0, 20) "#FFC107").
    split; [reflexivity |]. cbn [gauge_of steps axis_range].
    split; [repeat constructor; cbn; lia |].
    split; [right; left; reflexivity | unfold on_band; cbn [band_range fst snd]; lia].
  - do 2 eexists. exists (Band (20, 50) "#FF5722").
    split; [reflexivity |]. cbn [gauge_of steps axis_range].
    split; [repeat constructor; cbn; lia |].
    split; [right; right; left; reflexivity | unfold on_band; cbn [band_range fst snd]; lia].
Qed.

(** ** Where the credential comes from *)

(** X9.  A submitted run of the script sends its one request with the
    [API_KEY] of the process environment when there is one, otherwise
    with the value the last binding of [API_KEY] in the [.env] file
    gives, and with none at all when neither has it: a missing
    credential does not stop the run or the request. *)
Theorem credential_comes_from_environment_first :
  forall (dotenv : dotenv_file) (css : string) (i : interaction)
         (env0 : list (string * string)),
    submitted i = true ->
    sent (snd (script dotenv css i (fresh env0)))
    = [Request BASE_URL
         [("q", Some (typed_city i));
          ("appid", match env_get "API_KEY" env0 with
                    | Some k => Some k
                    | None => file_value "API_KEY" dotenv
                    end);
          ("units", Some "metric")]].
Proof.
  intros dotenv css i env0 Hs.
  destruct (script_env_log dotenv css i (fresh env0)) as [_ H].
  rewrite H, Hs. cbn [fresh sent environ app].
  unfold weather_request. rewrite env_get_startup. reflexivity.
Qed.

(** ** Runs do not depend on earlier runs *)

Lemma same_but_log_refl w : same_but_log w w.
Proof. repeat split. Qed.

Lemma blind_ret {A} (a : A) : log_blind (ret a).
Proof. intros w1 w2 H. split; [reflexivity | exact H]. Qed.

Lemma blind_lift {A} (r : result A) : log_blind (lift r).
Proof. intros w1 w2 H. split; [reflexivity | exact H]. Qed.

Lemma blind_emit (x : widget) : log_blind (emit x).
Proof.
  intros w1 w2 (He & Hu & Hc). split; [reflexivity |].
  unfold emit, show, same_but_log. cbn. rewrite He, Hu, Hc. repeat split.
Qed.

Lemma blind_bind {A B} (m : M A) (k : A -> M B) :
  log_blind m -> (forall a, log_blind (k a)) -> log_blind (bind m k).
Proof.
  intros Hm Hk w1 w2 H. unfold bind. destruct (Hm w1 w2 H) as [Hr Hw].
  destruct (m w1) as [r1 w1'], (m w2) as [r2 w2']. cbn [fst snd] in *. subst r2.
  destruct r1 as [a | e]; [apply Hk; exact Hw | split; [reflexivity | exact Hw]].
Qed.

Lemma blind_within {A} (c : container) (m : M A) :
  log_blind m -> log_blind (within c m).
Proof.
  intros Hm w1 w2 (He & Hu & Hc). unfold within.
  destruct (Hm (World (environ w1) (ui w1) (sent w1) (c :: cur w1))
               (World (environ w2) (ui w2) (sent w2) (c :: cur w2)))
    as [Hr (He' & Hu' & _)].
  { unfold same_but_log. cbn. rewrite He, Hu, Hc. repeat split. }
  destruct (m _) as [r1 w1'], (m _) as [r2 w2']. cbn [fst snd] in *.
  split; [exact Hr |]. unfold same_but_log. cbn. repeat split; assumption.
Qed.

Lemma blind_if {A} (b : bool) (m1 m2 : M A) :
  log_blind m1 -> log_blind m2 -> log_blind (if b then m1 else m2).
Proof. destruct b; auto. Qed.

Lemma blind_get_weather_data net city : log_blind (get_weather_data net city).
Proof.
  intros w1 w2 (He & Hu & Hc). rewrite !get_weather_data_run, !show_all_eq.
  cbn [fst snd record_request environ ui sent cur]. unfold same_but_log. cbn.
  rewrite He, Hu, Hc. repeat split.
Qed.

Ltac blind_steps :=
  repeat first
    [ apply blind_ret | apply blind_lift | apply blind_emit
    | apply blind_get_weather_data
    | apply blind_within | apply blind_if
    | apply blind_bind; [| intro] ].

Lemma blind_render city now data : log_blind (render city now data).
Proof.
  unfold render, create_temperature_gauge, go_Indicator, st_markdown, st_columns,
    st_metric, st_info, st_plotly_chart, st_expander, st_write.
  blind_steps.
Qed.

Lemma blind_main i : log_blind (main i).
Proof.
  unfold main, st_markdown, st_columns_weighted, st_text_input, st_button.
  repeat first [ apply blind_render | progress blind_steps ].
Qed.

(** The page of a run of the script, from any page-less world: only the
    environment once the [.env] file is loaded matters. *)
Lemma script_page_from_loaded dotenv css i e s :
  ui (snd (script dotenv css i (World e [] s [])))
  = ui (snd ((emit (PageConfig "Weather Dashboard" "🌤️" "centered" "collapsed") ;;
              st_markdown css true ;;
              main i) (World (startup_env dotenv e) [] [] []))).
Proof.
  assert (Hb : log_blind (emit (PageConfig "Weather Dashboard" "🌤️" "centered" "collapsed") ;;
                          st_markdown css true ;; main i)).
  { unfold st_markdown.
    apply blind_bind; [apply blind_emit | intros _].
    apply blind_bind; [apply blind_emit | intros _].
    apply blind_main. }
  destruct (Hb (World (startup_env dotenv e) [] s [])
               (World (startup_env dotenv e) [] [] [])) as [_ (_ & Hu & _)].
  { repeat split. }
  rewrite <- Hu. reflexivity.
Qed.

Lemma session_env_loaded dotenv css runs env0 :
  startup_env dotenv (environ (session dotenv css runs env0))
  = startup_env dotenv env0.
Proof.
  destruct runs as [| first later]; [reflexivity |].
  unfold session. cbn [fold_left].
  destruct (script_env_log dotenv css first (World env0 [] [] [])) as [He _].
  cbn [environ] in He.
  change (snd (script dotenv css first (World env0 [] [] [])))
    with (rerun dotenv css (fresh env0) first) in He.
  destruct (session_loaded dotenv css later (rerun dotenv css (fresh env0) first))
    as [He' _].
  { rewrite He. apply startup_env_idempotent. }
  rewrite He', He. apply startup_env_idempotent.
Qed.

(** X10.  Nothing is kept from one run to the next: after any earlier
    runs of a session, whatever they fetched or raised, the page of the
    last run is the page that run would show as the first run of a new
    process started with the same environment and [.env] file. *)
Theorem page_independent_of_earlier_runs :
  forall (dotenv : dotenv_file) (css : string)
         (earlier : list interaction) (i : interaction)
         (env0 : list (string * string)),
    ui (session dotenv css (earlier ++ [i]) env0) = script_page dotenv css i env0.
Proof.
  intros dotenv css earlier i env0.
  unfold session, script_page. rewrite fold_left_app. cbn [fold_left].
  fold (session dotenv css earlier env0).
  unfold rerun, fresh. rewrite !script_page_from_loaded.
  rewrite session_env_loaded. reflexivity.
Qed.

(** ** A credential that is set stays *)

Lemma session_files_keeps_key css runs w k :
  env_get "API_KEY" (environ w) = Some k ->
  env_get "API_KEY"
    (environ (fold_left (fun w r => rerun (fst r) css w (snd r)) runs w)) = Some k
  /\ sent (fold_left (fun w r => rerun (fst r) css w (snd r)) runs w)
     = (sent w
        ++ map (fun r => Request BASE_URL
                           [("q", Some (typed_city (snd r)));
                            ("appid", Some k);
                            ("units", Some "metric")])
             (filter (fun r => submitted (snd r)) runs))%list.
Proof.
  revert w. induction runs as [| [file i] runs IH]; intros w Hk;
    cbn [fold_left filter fst snd].
  - cbn. rewrite app_nil_r. split; [exact Hk | reflexivity].
  - destruct (script_env_log file css i (World (environ w) [] (sent w) []))
      as [He Hs].
    cbn [environ sent] in He, Hs. fold (rerun file css w i) in He, Hs.
    assert (Hk' : env_get "API_KEY" (environ (rerun file css w i)) = Some k).
    { rewrite He, env_get_startup, Hk. reflexivity. }
    destruct (IH (rerun file css w i) Hk') as [He' Hs'].
    split; [exact He' |]. rewrite Hs', Hs.
    unfold weather_request. rewrite env_get_startup, Hk.
    destruct (submitted i); cbn [map]; rewrite <- app_assoc; reflexivity.
Qed.

(** X11.  When the process starts with [API_KEY] in its environment,
    every request of the session carries that value, whatever the
    [.env] file holds at each run, and the variable still has it at the
    end: no run replaces a credential that is set. *)
Theorem credential_once_set_stays :
  forall (css : string) (runs : list (dotenv_file * interaction))
         (env0 : list (string * string)) (k : string),
    env_get "API_KEY" env0 = Some k ->
    sent (session_files css runs env0)
    = map (fun r => Request BASE_URL
                      [("q", Some (typed_city (snd r)));
                       ("appid", Some k);
                       ("units", Some "metric")])
          (filter (fun r => submitted (snd r)) runs)
    /\ env_get "API_KEY" (environ (session_files css runs env0)) = Some k.
Proof.
  intros css runs env0 k Hk. unfold session_files.
  destruct (session_files_keeps_key css runs (fresh env0) k Hk) as [He Hs].
  split; [rewrite Hs; reflexivity | exact He].
Qed.

End Script.

(** * The sample runs *)

#[export] Existing Instance ascii_str.

Notation "r @[ k ]" := (sub r k) (at level 1, format "r @[ k ]").

Example title_clear_sky : ascii_title "clear sky" = "Clear Sky".
Proof. reflexivity. Qed.

Example str_int_neg : str_int (-20) = "-20".
Proof. reflexivity. Qed.

Example repr_nested :
  py_str (PDict [("1h", PFloat "2.3"); ("k", PList [PStr "a'b"; PNone])])
  = "{'1h': 2.3, 'k': [" ++ String dquote ("a'b" ++ String dquote ", None]}").
Proof. reflexivity. Qed.

Lemma render_populates_documented_shape_witness :
  outcome (asks "London" clear_sky) sample_env = Ok tt
  /\ In (Placed [InColumn 0]
           (Metric "Temperature" "15.0°C" (Some "Feels like 14.2°C") "off"))
        (page (asks "London" clear_sky) sample_env)
  /\ In (Placed [] (Info "**Current Conditions:** Clear Sky"))
        (page (asks "London" clear_sky) sample_env).
Proof.
  assert (Hn : typed_city (asks "London" clear_sky) <> "") by discriminate.
  pose proof (render_populates_documented_shape (asks "London" clear_sky) sample_env
                clear_sky clear_sky_reading eq_refl Hn eq_refl eq_refl)
    as (H0 & H1 & _ & _ & H4 & _).
  split; [exact H0 | split; [exact H1 | exact H4]].
Defined.

(** C2 fails as stated: a 2xx answer with a JSON body that has no [main]
    object is returned by the fetch as it is, and the renderer raises
    [KeyError] at its first field access, after the title and before any
    metric. *)
Lemma render_not_total_on_json :
  clicked bare_answer = true
  /\ typed_city bare_answer <> ""
  /\ fst (get_weather_data (network bare_answer) (typed_city bare_answer) (fresh sample_env))
     = Ok (PDict [("cod", PInt 200)])
  /\ outcome bare_answer sample_env = Raise (Exn KeyError "'main'")
  /\ page bare_answer sample_env
     = List.app (input_widgets [])
         [ Placed [] (Markdown (title_html "London" "2024-05-01 12:00:00") true);
           Placed [] (ColumnsEqual 3) ].
Proof.
  split; [reflexivity |].
  split; [discriminate |].
  split; [reflexivity |].
  split; reflexivity.
Qed.


Lemma visibility_line_or_placeholder_witness :
  outcome (asks "Bergen" light_rain) sample_env = Ok tt
  /\ lines_labelled visibility_label (page (asks "Bergen" light_rain) sample_env)
     = [Placed detail_left (Write ["**👁️ Visibility:**"; "N/A meters"])]
  /\ lines_labelled visibility_label (page (asks "London" clear_sky) sample_env)
     = [Placed detail_left (Write ["**👁️ Visibility:**"; "10000 meters"])].
Proof.
  assert (Hl : typed_city (asks "London" clear_sky) <> "") by discriminate.
  assert (Hb : typed_city (asks "Bergen" light_rain) <> "") by discriminate.
  pose proof (visibility_line_or_placeholder (asks "Bergen" light_rain) sample_env
                light_rain light_rain_reading eq_refl Hb eq_refl eq_refl)
    as (B0 & B1 & _).
  pose proof (visibility_line_or_placeholder (asks "London" clear_sky) sample_env
                clear_sky clear_sky_reading eq_refl Hl eq_refl eq_refl)
    as (_ & _ & L2).
  split; [exact B0 |]. split; [exact (B1 eq_refl) | exact (L2 10000 eq_refl)].
Defined.

Lemma rainfall_line_defaults_to_zero_witness :
  lines_labelled rain_label (page (asks "Porto" rain_3h) sample_env)
  = [Placed detail_right (Write ["**🌧️ Rain (1h):**"; "0 mm"])].
Proof.
  assert (Hp : typed_city (asks "Porto" rain_3h) <> "") by discriminate.
  exact (rainfall_line_defaults_to_zero (asks "Porto" rain_3h) sample_env
           rain_3h [("3h", PFloat "5.1")] rain_3h_reading
           eq_refl Hp eq_refl eq_refl eq_refl eq_refl).
Defined.

Lemma failed_fetch_renders_only_error_witness :
  outcome atlantis sample_env = Ok tt
  /\ page atlantis sample_env
     = List.app (input_widgets [])
         [Placed [] (ErrorBox "❌ Error: City not found or invalid API key")].
Proof.
  assert (Hn : typed_city atlantis <> "") by discriminate.
  destruct (failed_fetch_renders_only_error atlantis sample_env eq_refl Hn eq_refl)
    as (errs & Hmain & Hui & _).
  unfold outcome, page. rewrite Hmain. cbn [fst snd ui].
  rewrite <- Hui. split; reflexivity.
Defined.

Lemma no_fetch_without_click_and_city_witness :
  clicked empty_city = true
  /\ requests_sent empty_city sample_env = []
  /\ page empty_city sample_env = input_widgets [].
Proof.
  pose proof (no_fetch_without_click_and_city empty_city sample_env (or_intror eq_refl))
    as H.
  unfold requests_sent, page. rewrite H. repeat split.
Defined.

(** A variable already in the environment wins over the [.env] file, and
    a run whose rendering raises does not end the session: the later
    runs send their requests with the same key. *)
Example session_sample :
  map req_params
    (sent (session [("API_KEY", Some "from-file"); ("DEBUG", Some "1")] ""
             [asks "London" clear_sky; bare_answer; empty_city; atlantis]
             sample_env))
  = [ [("q", Some "London"); ("appid", Some "0123456789abcdef"); ("units", Some "metric")];
      [("q", Some "London"); ("appid", Some "0123456789abcdef"); ("units", Some "metric")];
      [("q", Some "Atlantis123"); ("appid", Some "0123456789abcdef");
       ("units", Some "metric")] ].
Proof. reflexivity. Qed.

Example session_key_from_file :
  map req_params
    (sent (session [("API_KEY", Some "from-file")] "" [atlantis; asks "Bergen" light_rain] []))
  = [ [("q", Some "Atlantis123"); ("appid", Some "from-file"); ("units", Some "metric")];
      [("q", Some "Bergen"); ("appid", Some "from-file"); ("units", Some "metric")] ].
Proof. reflexivity. Qed.

Lemma falsy_answer_shows_nothing_witness :
  page empty_object sample_env = input_widgets []
  /\ outcome empty_object sample_env = Ok tt
  /\ List.length (requests_sent empty_object sample_env) = 1%nat.
Proof.
  assert (Hn : typed_city empty_object <> "") by discriminate.
  assert (Hd : PDict [] <> PNone) by discriminate.
  pose proof (falsy_answer_shows_nothing empty_object sample_env (PDict [])
                eq_refl Hn eq_refl Hd eq_refl) as H.
  unfold page, outcome, requests_sent. rewrite H. repeat split.
Defined.

Lemma non_object_answer_raises_type_error_witness :
  outcome list_answer sample_env
  = Raise (Exn TypeError "list indices must be integers or slices, not str")
  /\ page list_answer sample_env
     = List.app (input_widgets [])
         [ Placed [] (Markdown (title_html "London" "2024-05-01 12:00:00") true);
           Placed [] (ColumnsEqual 3) ].
Proof.
  assert (Hn : typed_city list_answer <> "") by discriminate.
  assert (Hd : forall d, PList [PDict clear_sky] <> PDict d) by discriminate.
  destruct (non_object_answer_raises_type_error list_answer sample_env
              (PList [PDict clear_sky]) eq_refl Hn eq_refl eq_refl Hd) as [_ Hp].
  split; [reflexivity | exact Hp].
Defined.

Lemma missing_main_raises_key_error_witness :
  outcome bare_answer sample_env = Raise (Exn KeyError "'main'").
Proof.
  assert (Hn : typed_city bare_answer <> "") by discriminate.
  assert (Hd : [("cod", PInt 200)] <> []) by discriminate.
  exact (proj1 (missing_main_raises_key_error bare_answer sample_env
                  [("cod", PInt 200)] eq_refl Hn eq_refl Hd eq_refl)).
Defined.

Lemma empty_weather_list_raises_index_error_witness :
  outcome (asks "London" no_weather) sample_env
  = Raise (Exn IndexError "list index out of range")
  /\ lines_labelled visibility_label (page (asks "London" no_weather) sample_env) = [].
Proof.
  assert (Hn : typed_city (asks "London" no_weather) <> "") by discriminate.
  destruct (empty_weather_list_raises_index_error (asks "London" no_weather) sample_env
              no_weather (PFloat "15.0") (PFloat "14.2") (PInt 70) (PFloat "3.5")
              eq_refl Hn eq_refl eq_refl eq_refl eq_refl eq_refl eq_refl) as [Ho Hp].
  split; [exact Ho | rewrite Hp; reflexivity].
Defined.

Lemma non_object_rain_raises_attribute_error_witness :
  outcome (asks "Bergen" rain_number) sample_env
  = Raise (Exn AttributeError "'float' object has no attribute 'get'")
  /\ lines_labelled rain_label (page (asks "Bergen" rain_number) sample_env) = [].
Proof.
  assert (Hn : typed_city (asks "Bergen" rain_number) <> "") by discriminate.
  assert (Hd : forall r, PFloat "2.3" <> PDict r) by discriminate.
  assert (Hfields : has_fields (PDict rain_number) light_rain_reading)
    by (repeat split).
  destruct (non_object_rain_raises_attribute_error (asks "Bergen" rain_number) sample_env
              rain_number light_rain_reading (PFloat "2.3")
              eq_refl Hn eq_refl Hfields eq_refl Hd) as (_ & _ & _ & Hl & _).
  split; [reflexivity | exact Hl].
Defined.

Lemma visibility_line_prints_any_value_witness :
  lines_labelled visibility_label (page (asks "London" null_visibility) sample_env)
  = [Placed detail_left (Write ["**👁️ Visibility:**"; "None meters"])].
Proof.
  assert (Hn : typed_city (asks "London" null_visibility) <> "") by discriminate.
  exact (visibility_line_prints_any_value (asks "London" null_visibility) sample_env
           null_visibility clear_sky_reading PNone eq_refl Hn eq_refl eq_refl eq_refl).
Defined.

Lemma gauge_bands_cover_axis_witness :
  exists ind lay b,
    create_temperature_gauge (PFloat "15.5") (PFloat "14.2") (fresh sample_env)
      = (Ok (Figure [ind] lay), fresh sample_env)
    /\ In b (steps (gauge_of ind))
    /\ on_band b 31 2.
Proof.
  assert (Hd : 0 < 2) by lia.
  assert (Hn : -20 * 2 <= 31 <= 50 * 2) by lia.
  destruct (gauge_bands_cover_axis "15.5" "14.2" (fresh sample_env) 31 2 Hd Hn)
    as (ind & lay & b & Hg & _ & Hin & Hb).
  exists ind, lay, b. split; [exact Hg | split; [exact Hin | exact Hb]].
Defined.

Lemma credential_comes_from_environment_first_witness :
  map req_params (sent (snd (script [("DEBUG", Some "1")] "" atlantis (fresh []))))
  = [[("q", Some "Atlantis123"); ("appid", None); ("units", Some "metric")]]
  /\ map req_params
       (sent (snd (script [("API_KEY", Some "from-file")] "" atlantis (fresh sample_env))))
     = [[("q", Some "Atlantis123"); ("appid", Some "0123456789abcdef");
         ("units", Some "metric")]]
  /\ map req_params
       (sent (snd (script [("API_KEY", Some "first"); ("API_KEY", Some "second")] ""
                     atlantis (fresh []))))
     = [[("q", Some "Atlantis123"); ("appid", Some "second"); ("units", Some "metric")]].
Proof.
  split; [| split].
  - rewrite (credential_comes_from_environment_first [("DEBUG", Some "1")] "" atlantis []
               eq_refl). reflexivity.
  - rewrite (credential_comes_from_environment_first [("API_KEY", Some "from-file")] ""
               atlantis sample_env eq_refl). reflexivity.
  - rewrite (credential_comes_from_environment_first
               [("API_KEY", Some "first"); ("API_KEY", Some "second")] ""
               atlantis [] eq_refl). reflexivity.
Defined.

Lemma credential_once_set_stays_witness :
  map req_params
    (sent (session_files ""
             [ ([], atlantis);
               ([("API_KEY", Some "added-later")], asks "Bergen" light_rain);
               ([("API_KEY", None)], empty_city);
               ([("API_KEY", Some "changed")], asks "London" clear_sky) ]
             sample_env))
  = [ [("q", Some "Atlantis123"); ("appid", Some "0123456789abcdef");
       ("units", Some "metric")];
      [("q", Some "Bergen"); ("appid", Some "0123456789abcdef"); ("units", Some "metric")];
      [("q", Some "London"); ("appid", Some "0123456789abcdef"); ("units", Some "metric")] ].
Proof.
  rewrite (proj1 (credential_once_set_stays ""
                    [ ([], atlantis);
                      ([("API_KEY", Some "added-later")], asks "Bergen" light_rain);
                      ([("API_KEY", None)], empty_city);
                      ([("API_KEY", Some "changed")], asks "London" clear_sky) ]
                    sample_env "0123456789abcdef" eq_refl)).
  reflexivity.
Defined.

(** C5 fails as stated: the credential is not read once.  A process
    started without [API_KEY], whose [.env] file gains the key between
    two runs, sends its first request without [appid] and its second
    with the key added later. *)
Lemma credential_changes_with_dotenv :
  map req_params
    (sent (session_files ""
             [ ([], atlantis);
               ([("API_KEY", Some "added-later")], asks "Bergen" light_rain) ]
             []))
  = [ [("q", Some "Atlantis123"); ("appid", None); ("units", Some "metric")];
      [("q", Some "Bergen"); ("appid", Some "added-later"); ("units", Some "metric")] ].
Proof. reflexivity. Qed.


(** C7 fails as stated: a 2xx response that lacks [visibility] and also
    [wind] is returned by the fetch, and the renderer raises [KeyError]
    at the wind metric: the run fails and no visibility line, with or
    without placeholder, is shown. *)
Lemma visibility_placeholder_needs_mandatory_fields :
  fst (get_weather_data (network (asks "London" no_visibility_no_wind)) "London"
         (fresh sample_env))
  = Ok (PDict no_visibility_no_wind)
  /\ contains "visibility" (PDict no_visibility_no_wind) = Ok false
  /\ outcome (asks "London" no_visibility_no_wind) sample_env
     = Raise (Exn KeyError "'wind'")
  /\ lines_labelled visibility_label
       (page (asks "London" no_visibility_no_wind) sample_env) = [].
Proof.
  split; [reflexivity |].
  split; [reflexivity |].
  split; [reflexivity |].
  reflexivity.
Qed.

(** C9 fails as stated: a 2xx response whose [rain] object has no ["1h"]
    and which has no [clouds] is returned by the fetch, and the renderer
    raises [KeyError] before the rainfall line: no "0 mm" line is
    shown. *)
Lemma rainfall_default_needs_mandatory_fields :
  fst (get_weather_data (network (asks "Porto" rain_3h_without_clouds)) "Porto"
         (fresh sample_env))
  = Ok (PDict rain_3h_without_clouds)
  /\ (Ok (PDict rain_3h_without_clouds))@["rain"] = Ok (PDict [("3h", PFloat "5.1")])
  /\ contains "1h" (PDict [("3h", PFloat "5.1")]) = Ok false
  /\ outcome (asks "Porto" rain_3h_without_clouds) sample_env
     = Raise (Exn KeyError "'clouds'")
  /\ lines_labelled rain_label (page (asks "Porto" rain_3h_without_clouds) sample_env) = [].
Proof.
  split; [reflexivity |].
  split; [reflexivity |].
  split; [reflexivity |].
  split; [reflexivity |].
  reflexivity.
Qed.

(** The first character of a str, not its first byte. *)
Example getitem0_first_character :
  getitem0 (PStr "éte") = Ok (PStr "é")
  /\ getitem0 (PStr "sky") = Ok (PStr "s").
Proof. split; reflexivity. Qed.
